(** * Market scoring engine of polylitics-next: a shallow embedding

    The development follows the TypeScript sources

      - [lib/polymarket/deadline.ts]          (module [Deadline])
      - [lib/polymarket/model.ts]             (module [Model])
      - [lib/polymarket/advanced-scoring.ts]  (module [AdvancedScoring])

    Modelling conventions.

    - A JavaScript [number] is an exact rational ([Q]): every number is
      finite and arithmetic does not round.  Equality of numbers is [==]
      ([Qeq]).  Every division of the sources is guarded against a zero
      divisor, so the convention [x / 0 == 0] of [Q] is never relied on.
    - [Math.sqrt] and [Number.prototype.toFixed] are host functions; they
      are parameters ([sqrt], [toFixed]) of the definitions that call them.
    - A [Date] is its time value in milliseconds, or the invalid date (time
      value NaN).  The clock ([new Date()]) is the parameter [now]; the host
      date parser ([new Date(string)]) is the parameter [parseDate].
    - An optional field ([x?: T | null]) is an [option]; [??] is [orElse].
    - Strings are byte strings; case mapping is the ASCII one.
    - Where overflow or rounding decides, module [Double] gives the same
      source functions on IEEE binary64 numbers ([PrimFloat]); the
      statements about the exact model say so. *)

From Stdlib Require Import QArith Qminmax Qabs Qround ZArith List String Ascii Bool.
From Stdlib Require Import DecimalString Lia Lqa Qfield Sorted Permutation.
From Stdlib Require PrimFloat FloatClass.
Import ListNotations.

Open Scope Q_scope.

(** ** JavaScript primitives *)

Module JS.

(** [a ?? d] *)
Definition orElse {A : Type} (a : option A) (d : A) : A :=
  match a with
  | Some x => x
  | None => d
  end.

(** [x < y], [x <= y], [x > y], [x >= y] and [x === y] on numbers. *)
Definition leb (x y : Q) : bool := Qle_bool x y.
Definition ltb (x y : Q) : bool := negb (Qle_bool y x).
Definition gtb (x y : Q) : bool := ltb y x.
Definition geb (x y : Q) : bool := leb y x.
Definition eqb (x y : Q) : bool := Qeq_bool x y.

(** [Math.pow(x, 2)] *)
Definition pow2 (x : Q) : Q := x ^ 2.

(** [xs.reduce((a, b) => a + b, 0)] *)
Definition sum (xs : list Q) : Q := fold_left Qplus xs 0.

(** [xs.length] as a number *)
Definition len {A : Type} (xs : list A) : Q := inject_Z (Z.of_nat (List.length xs)).

(** [xs.slice(i, j)] for [0 <= i <= j] *)
Definition slice {A : Type} (i j : nat) (xs : list A) : list A :=
  firstn (j - i) (skipn i xs).

(** ASCII [toLowerCase] *)
Definition lowerAscii (c : ascii) : ascii :=
  let n := nat_of_ascii c in
  if ((65 <=? n) && (n <=? 90))%nat then ascii_of_nat (n + 32) else c.

Fixpoint toLowerCase (s : string) : string :=
  match s with
  | EmptyString => EmptyString
  | String c s' => String (lowerAscii c) (toLowerCase s')
  end.

(** [hay.includes(needle)] *)
Fixpoint includes (needle hay : string) : bool :=
  if prefix needle hay then true
  else match hay with
       | EmptyString => false
       | String _ hay' => includes needle hay'
       end.

Fixpoint drop (n : nat) (s : string) : string :=
  match n, s with
  | O, _ => s
  | S n', String _ s' => drop n' s'
  | S _, EmptyString => EmptyString
  end.

Definition take (n : nat) (s : string) : string := substring 0 n s.

Definition isEmpty (s : string) : bool :=
  match s with
  | EmptyString => true
  | String _ _ => false
  end.

(** The outcome of a statement that may raise. *)
Inductive completion (A : Type) : Type :=
| Normal (a : A)
| Throw.
Arguments Normal {A} a.
Arguments Throw {A}.

End JS.

(** ** Regular expressions

    The patterns of [deadline.ts] are sequences of quantified character
    classes, with at most one capture group and an optional end anchor.
    Matching is the backtracking search of ECMAScript: leftmost start,
    each quantifier greedy. *)

Module Regex.
Import JS.

Record atom : Type := Atom {
  cls : ascii -> bool;
  lo : nat;
  hi : option nat (* [None]: unbounded *)
}.

Record pattern : Type := Pattern {
  atoms : list atom;
  group : option (nat * nat); (* atoms [i, j) form capture group 1 *)
  anchored : bool             (* the pattern ends in [$] *)
}.

Definition isDigit (c : ascii) : bool :=
  let n := nat_of_ascii c in ((48 <=? n) && (n <=? 57))%nat.
Definition isLower (c : ascii) : bool :=
  let n := nat_of_ascii c in ((97 <=? n) && (n <=? 122))%nat.
Definition isUpper (c : ascii) : bool :=
  let n := nat_of_ascii c in ((65 <=? n) && (n <=? 90))%nat.
(** [\w] *)
Definition isWord (c : ascii) : bool :=
  isDigit c || isLower c || isUpper c || Ascii.eqb c "_".

Definition one (p : ascii -> bool) : atom := Atom p 1 (Some 1%nat).
Definition plus (p : ascii -> bool) : atom := Atom p 1 None.
Definition between (p : ascii -> bool) (m n : nat) : atom := Atom p m (Some n).

(** A literal, case sensitive. *)
Fixpoint lit (s : string) : list atom :=
  match s with
  | EmptyString => []
  | String c s' => one (Ascii.eqb c) :: lit s'
  end.

(** A literal under the [i] flag. *)
Fixpoint liti (s : string) : list atom :=
  match s with
  | EmptyString => []
  | String c s' =>
      one (fun d => Ascii.eqb (lowerAscii c) (lowerAscii d)) :: liti s'
  end.

(** Length of the longest prefix of [s] in class [p]. *)
Fixpoint run (p : ascii -> bool) (s : string) : nat :=
  match s with
  | String c s' => if p c then S (run p s') else O
  | EmptyString => O
  end.

(** Greedy choice: try [k n], then [k (n-1)], ... down to [k m]. *)
Fixpoint backtrack {A : Type} (k : nat -> option A) (m n : nat) : option A :=
  if (n <? m)%nat then None
  else match k n with
       | Some r => Some r
       | None => match n with
                 | O => None
                 | S n' => backtrack k m n'
                 end
       end.

(** Match the atoms at the start of [s]; the result lists the text each
    atom consumed. *)
Fixpoint matchHere (anch : bool) (ats : list atom) (s : string)
  : option (list string) :=
  match ats with
  | [] => if anch && negb (isEmpty s) then None else Some []
  | a :: rest =>
      let avail := run (cls a) s in
      let top := match hi a with
                 | Some h => Nat.min h avail
                 | None => avail
                 end in
      backtrack
        (fun n => option_map (cons (take n s)) (matchHere anch rest (drop n s)))
        (lo a) top
  end.

Fixpoint search (p : pattern) (s : string) : option (list string) :=
  match matchHere (anchored p) (atoms p) s with
  | Some m => Some m
  | None => match s with
            | EmptyString => None
            | String _ s' => search p s'
            end
  end.

(** [pattern.test(s)] *)
Definition test (p : pattern) (s : string) : bool :=
  match search p s with
  | Some _ => true
  | None => false
  end.

Definition concatAll (l : list string) : string :=
  fold_right String.append EmptyString l.

(** The result of [s.match(pattern)]: [match[0]] and [match[1]]. *)
Record matchResult : Type := MatchResult {
  m0 : string;
  m1 : option string
}.

Definition exec (p : pattern) (s : string) : option matchResult :=
  match search p s with
  | None => None
  | Some pieces =>
      Some (MatchResult (concatAll pieces)
              (match group p with
               | None => None
               | Some (i, j) => Some (concatAll (JS.slice i j pieces))
               end))
  end.

End Regex.

(** ** Arrays *)

Module JSArray.
Import JS.

(** [Array.prototype.sort(cmp)] for a comparator [cmp] returning a number:
    the stable sort, as an insertion sort.  An element goes before the
    first later one it does not compare greater than. *)
Fixpoint insertBy {A : Type} (cmp : A -> A -> Q) (a : A) (l : list A) : list A :=
  match l with
  | [] => [a]
  | b :: l' => if leb (cmp a b) 0 then a :: l else b :: insertBy cmp a l'
  end.

Definition sortWith {A : Type} (cmp : A -> A -> Q) (l : list A) : list A :=
  fold_right (insertBy cmp) [] l.

(** [xs[0]] and [xs[xs.length - 1]] of a non-empty array with first
    element [a]. *)
Definition lastOf {A : Type} (a : A) (l : list A) : A := last l a.

End JSArray.

(** ** deadline.ts *)

Module Deadline.
Import JS Regex.

(** A [Date] object: a time value in milliseconds since the epoch, or the
    invalid date, whose time value is NaN. *)
Inductive Date : Type :=
| MkDate (time : Z)
| InvalidDate.

Inductive Urgency : Type :=
| critical | urgent | moderate | distant | unknown.

Definition msPerDay : Q := 1000 * 60 * 60 * 24.

(** The patterns of [looksLikeByDateMarket], in source order. *)
Definition byDatePatterns : list pattern :=
  [ Pattern (lit " by ") None false;
    Pattern (lit " before ") None false;
    Pattern (lit " by end of ") None false;
    Pattern (lit " this year") None false;
    Pattern (lit " this month") None false;
    Pattern (lit " this week") None false;
    Pattern (lit " by " ++ [between isDigit 4 4]) None false;
    Pattern (lit " before " ++ [between isDigit 1 2] ++ lit "/"
               ++ [between isDigit 1 2]) None false;
    Pattern (lit " by " ++ [plus isLower] ++ lit " "
               ++ [between isDigit 1 2]) None false;
    Pattern (lit "deadline") None false;
    Pattern [between isDigit 4 4] None true ].

Definition looksLikeByDateMarket
    (title : string) (rules description : option string) : bool :=
  let text :=
    toLowerCase
      (title ++ " " ++ orElse rules "" ++ " " ++ orElse description "")%string in
  existsb (fun pattern => test pattern text) byDatePatterns.

(** The patterns of [extractDeadline], in source order. *)
Definition deadlinePatterns : list pattern :=
  [ (* /by (\w+ \d{1,2}, \d{4})/i *)
    Pattern (liti "by " ++ [plus isWord] ++ lit " " ++ [between isDigit 1 2]
               ++ lit ", " ++ [between isDigit 4 4]) (Some (3, 9)%nat) false;
    (* /before (\w+ \d{1,2}, \d{4})/i *)
    Pattern (liti "before " ++ [plus isWord] ++ lit " " ++ [between isDigit 1 2]
               ++ lit ", " ++ [between isDigit 4 4]) (Some (7, 13)%nat) false;
    (* /(\d{1,2}\/\d{1,2}\/\d{4})/ *)
    Pattern ([between isDigit 1 2] ++ lit "/" ++ [between isDigit 1 2]
               ++ lit "/" ++ [between isDigit 4 4]) (Some (0, 5)%nat) false;
    (* /by end of (\w+ \d{4})/i *)
    Pattern (liti "by end of " ++ [plus isWord] ++ lit " "
               ++ [between isDigit 4 4]) (Some (10, 13)%nat) false;
    (* /this year/i *)
    Pattern (liti "this year") None false ].

Section Host.
(** [new Date().getTime()] *)
Variable now : Z.
(** The time value of [new Date(new Date().getFullYear(), 11, 31)]. *)
Variable endOfThisYear : Z.
(** [Date.parse]: [None] stands for NaN. *)
Variable parseDate : string -> option Z.

(** [new Date(s)] for a string [s]; it never raises. *)
Definition newDate (s : string) : completion Date :=
  Normal (match parseDate s with
          | Some t => MkDate t
          | None => InvalidDate
          end).

(** [match[1] || match[0]]: an absent or empty group gives [match[0]]. *)
Definition groupOrWhole (m : matchResult) : string :=
  match m1 m with
  | Some g => if isEmpty g then m0 m else g
  | None => m0 m
  end.

(** The body of the [try] block for one match. *)
Definition parseMatch (m : matchResult) : completion Date :=
  if includes "this year" (m0 m) then Normal (MkDate endOfThisYear)
  else newDate (groupOrWhole m).

(** The [for] loop over the patterns; [catch { continue }] resumes it. *)
Fixpoint tryPatterns (patterns : list pattern) (text : string) : option Date :=
  match patterns with
  | [] => None
  | pattern :: more =>
      match exec pattern text with
      | Some m =>
          match parseMatch m with
          | Normal d => Some d
          | Throw => tryPatterns more text
          end
      | None => tryPatterns more text
      end
  end.

Definition extractDeadline
    (title : string) (rules : option string) (endDate : option Date)
  : option Date :=
  match endDate with
  | Some d => Some d
  | None =>
      let text := (title ++ " " ++ orElse rules "")%string in
      tryPatterns deadlinePatterns text
  end.

(** [ms > 0 ? ms / (1000*60*60*24) : 0]; for the invalid date [ms] is NaN
    and the comparison is false. *)
Definition timeRemainingDays (endDate : option Date) : option Q :=
  match endDate with
  | None => None
  | Some InvalidDate => Some 0
  | Some (MkDate e) =>
      let ms := inject_Z (e - now) in
      Some (if gtb ms 0 then ms / msPerDay else 0)
  end.

End Host.

Definition deadlineUrgency (days : option Q) : Urgency :=
  match days with
  | None => unknown
  | Some d =>
      if ltb d 7 then critical
      else if ltb d 30 then urgent
      else if ltb d 90 then moderate
      else distant
  end.

End Deadline.

(** ** model.ts *)

Module Model.
Import JS.

Record ModelOutput : Type := {
  modelProb : Q;
  delayRisk : Q;
  rationale : list string;
  confidence : Q
}.

(** [Math.max(0, Math.min(1, n))] *)
Definition clamp01 (n : Q) : Q := Qmax 0 (Qmin 1 n).

(** The mutable locals of [deadlineDelayModel]: [delayPenalty],
    [confidence] and the [rationale] array. *)
Record locals : Type := {
  delayPenalty : Q;
  conf : Q;
  notes : list string
}.

Definition bump (st : locals) (penalty : Q) (c : Q) (note : string) : locals :=
  {| delayPenalty := delayPenalty st + penalty;
     conf := c;
     notes := notes st ++ [note] |}.

(** Time-based penalties. *)
Definition timeStep (days : Q) (st : locals) : locals :=
  if ltb days 7 then
    bump st 0.25 0.9 "< 7 days: Very high delay risk for unfinished items."
  else if ltb days 30 then
    bump st 0.18 0.85 "< 30 days: High delay risk; insufficient buffer."
  else if ltb days 90 then
    bump st 0.10 0.75 "< 90 days: Moderate delay risk."
  else if ltb days 180 then
    bump st 0.04 0.65 "< 6 months: Light delay risk."
  else
    bump st 0.02 0.5 "> 6 months: Minimal delay risk from timeline.".

(** Liquidity-based adjustment. *)
Definition liquidityStep (liquidity : option Q) (st : locals) : locals :=
  let liq := orElse liquidity 0 in
  if ltb liq 5000 then
    bump st 0.08 (conf st * 0.9) "Low liquidity: Price may be noisy/optimistic."
  else if ltb liq 20000 then
    bump st 0.04 (conf st * 0.95) "Medium liquidity: Some noise expected."
  else
    {| delayPenalty := delayPenalty st;
       conf := conf st;
       notes := notes st ++ ["High liquidity: Price likely more accurate."%string] |}.

(** Category-specific adjustments. *)
Definition categoryStep (category : option string) (st : locals) : locals :=
  let cat := toLowerCase (orElse category ""%string) in
  if includes "crypto" cat || includes "protocol" cat then
    bump st 0.05 (conf st) "Crypto/protocol: Historical delays common."
  else if includes "regulation" cat || includes "legal" cat then
    bump st 0.08 (conf st) "Regulatory/legal: Procedural delays expected."
  else if includes "politics" cat then
    bump st 0.03 (conf st) "Politics: Moderate unpredictability."
  else st.

(** The locals after the three adjustments, from [delayPenalty = 0],
    [confidence = 0.7] and an empty rationale. *)
Definition accumulate
    (days : Q) (liquidity : option Q) (category : option string) : locals :=
  categoryStep category
    (liquidityStep liquidity
       (timeStep days {| delayPenalty := 0; conf := 0.7; notes := [] |})).

Definition deadlineDelayModel (now : Z)
    (marketProb : Q) (endDate : option Deadline.Date)
    (liquidity : option Q) (category : option string) : ModelOutput :=
  let days := Deadline.timeRemainingDays now endDate in
  let marketProb := clamp01 marketProb in
  match days with
  | None =>
      {| modelProb := marketProb;
         delayRisk := 0;
         confidence := 0.3;
         rationale := ["No deadline available; cannot assess delay risk."%string] |}
  | Some days =>
      let st := accumulate days liquidity category in
      {| modelProb := clamp01 (marketProb - delayPenalty st);
         delayRisk := clamp01 (delayPenalty st / 0.30);
         confidence := conf st;
         rationale := notes st |}
  end.

Record VolumeSpike : Type := {
  volumeZScore : Q;
  isSpike : bool;
  spikeRationale : string
}.

(** Population mean and variance, as the two [reduce] calls compute them. *)
Definition mean (history : list Q) : Q := sum history / len history.
Definition variance (history : list Q) : Q :=
  fold_left (fun acc v => acc + pow2 (v - mean history)) history 0
  / len history.

Section Host.
(** [Math.sqrt] *)
Variable sqrt : Q -> Q.
(** [x.toFixed(digits)] *)
Variable toFixed : Q -> nat -> string.

Definition stdDev (history : list Q) : Q := sqrt (variance history).

Definition volumeSpikeScore
    (volume24h : option Q) (volumeHistory : list Q) : VolumeSpike :=
  let current := orElse volume24h 0 in
  let history := filter (fun v => gtb v 0) volumeHistory in
  if (List.length history <? 3)%nat then
    {| volumeZScore := 0;
       isSpike := false;
       spikeRationale := "Insufficient volume history" |}
  else
    let mean := mean history in
    let stdDev := stdDev history in
    if eqb stdDev 0 then
      {| volumeZScore := 0;
         isSpike := false;
         spikeRationale := "No volume variance detected" |}
    else
      let zScore := (current - mean) / stdDev in
      let isSpike := gtb zScore 2.0 in
      let rationale :=
        ("Current: " ++ toFixed current 0 ++ ", Mean: " ++ toFixed mean 0
           ++ ", Z: " ++ toFixed zScore 2)%string in
      {| volumeZScore := zScore;
         isSpike := isSpike;
         spikeRationale :=
           if isSpike then (rationale ++ " - SPIKE DETECTED")%string
           else rationale |}.
End Host.

Definition attentionScore
    (volume24h priceChange24h liquidity : option Q) : Q :=
  let volume := orElse volume24h 0 in
  let priceChange := Qabs (orElse priceChange24h 0) in
  let liquidity := orElse liquidity 0 in
  let volumeScore := Qmin (volume / 100000) 1 * 0.4 in
  let priceScore := Qmin (priceChange / 0.2) 1 * 0.4 in
  let liquidityScore := Qmin (liquidity / 50000) 1 * 0.2 in
  volumeScore + priceScore + liquidityScore.

(** A point of a price history. *)
Record PricePoint : Type := {
  price : Q;
  timestamp : Deadline.Date
}.

Record Velocity : Type := {
  velocity1h : Q;
  velocity24h : Q;
  acceleration : Q
}.

(** [d.getTime()]: [None] stands for NaN. *)
Definition getTime (d : Deadline.Date) : option Z :=
  match d with
  | Deadline.MkDate t => Some t
  | Deadline.InvalidDate => None
  end.

(** The comparator [(a, b) => b.timestamp.getTime() - a.timestamp.getTime()].
    A NaN result counts as 0 in a sort; with such a result the order of the
    host's sort is implementation-defined, and the model's is one of the
    orders allowed. *)
Definition compareByTime (a b : PricePoint) : Q :=
  match getTime (timestamp b), getTime (timestamp a) with
  | Some tb, Some ta => inject_Z (tb - ta)
  | _, _ => 0
  end.

(** [p.timestamp >= since], false for an invalid timestamp. *)
Definition notBefore (since : Z) (p : PricePoint) : bool :=
  match getTime (timestamp p) with
  | Some t => (since <=? t)%Z
  | None => false
  end.

(** [l.length >= 2 ? l[0].price - l[l.length - 1].price : 0] *)
Definition firstMinusLast (l : list PricePoint) : Q :=
  match l with
  | a :: _ :: _ => price a - price (JSArray.lastOf a l)
  | _ => 0
  end.

Definition priceVelocity (now : Z) (priceHistory : list PricePoint) : Velocity :=
  if (List.length priceHistory <? 2)%nat then
    {| velocity1h := 0; velocity24h := 0; acceleration := 0 |}
  else
    let sorted := JSArray.sortWith compareByTime priceHistory in
    let oneHourAgo := (now - 60 * 60 * 1000)%Z in
    let recentPrices := filter (notBefore oneHourAgo) sorted in
    let velocity1h := firstMinusLast recentPrices in
    let oneDayAgo := (now - 24 * 60 * 60 * 1000)%Z in
    let dayPrices := filter (notBefore oneDayAgo) sorted in
    let velocity24h := firstMinusLast dayPrices in
    let acceleration := velocity1h - velocity24h / 24 in
    {| velocity1h := velocity1h;
       velocity24h := velocity24h;
       acceleration := acceleration |}.

End Model.

(** ** advanced-scoring.ts *)

Module AdvancedScoring.
Import JS.

Inductive Side : Type := YES | NO.
Inductive Direction : Type := Bet (side : Side) | WATCH.
Inductive Momentum : Type := bullish | bearish | neutral.
Module Tier.
Inductive t : Type := S | A | B | C | D.
End Tier.
Inductive Size : Type := skip | small | medium | large.
Inductive SignalType : Type :=
| DeadlineOverpriced
| MomentumEntry
| AttentionArbitrage
| VolumePrecursor
| MeanReversion.

Record OpportunitySignal : Type := {
  type : SignalType;
  strength : Q; (* 0-1 *)
  direction : Direction;
  confidence : Q;
  rationale : list string
}.

Definition isNeutral (m : Momentum) : bool :=
  match m with
  | neutral => true
  | _ => false
  end.

Definition isTierD (t : Tier.t) : bool :=
  match t with
  | Tier.D => true
  | _ => false
  end.

Definition isTierSorA (t : Tier.t) : bool :=
  match t with
  | Tier.S | Tier.A => true
  | _ => false
  end.

Definition momentumName (m : Momentum) : string :=
  match m with
  | bullish => "bullish"
  | bearish => "bearish"
  | neutral => "neutral"
  end.

(** Kelly criterion for position sizing. *)
Definition calculateKelly (modelProb marketPrice : Q) (direction : Side) : Q :=
  let p := match direction with YES => modelProb | NO => 1 - modelProb end in
  let price := match direction with YES => marketPrice | NO => 1 - marketPrice end in
  if leb price 0 || geb price 1 then 0
  else
    let b := (1 - price) / price in
    let q := 1 - p in
    let kelly := (b * p - q) / b in
    Qmax 0 (Qmin 0.25 kelly).

Definition detectMomentum (velocity1h velocity24h volumeZScore : Q) : Momentum :=
  if gtb velocity1h 0.02 && gtb velocity24h 0.03 && gtb volumeZScore 1 then bullish
  else if ltb velocity1h (-0.02) && ltb velocity24h (-0.03) && gtb volumeZScore 1
  then bearish
  else if gtb velocity24h 0.05 then bullish
  else if ltb velocity24h (-0.05) then bearish
  else neutral.

(** The sort key of a signal. *)
Definition weight (s : OpportunitySignal) : Q := strength s * confidence s.

(** The comparator [(a, b) => b.strength * b.confidence - a.strength * a.confidence]. *)
Definition compareSignals (a b : OpportunitySignal) : Q := weight b - weight a.

(** [Array.prototype.sort] is stable; with a comparator that is a
    difference of keys, every stable sort returns the list computed here:
    an element goes before the first later one it does not compare
    greater than. *)
Fixpoint insertSignal (a : OpportunitySignal) (l : list OpportunitySignal)
  : list OpportunitySignal :=
  match l with
  | [] => [a]
  | b :: l' => if leb (compareSignals a b) 0 then a :: l else b :: insertSignal a l'
  end.

Definition sortSignals (l : list OpportunitySignal) : list OpportunitySignal :=
  fold_right insertSignal [] l.

(** [signals.push(s)] under a condition. *)
Definition pushIf (c : bool) (s : OpportunitySignal) (signals : list OpportunitySignal)
  : list OpportunitySignal :=
  if c then signals ++ [s] else signals.

Section Host.
Variable toFixed : Q -> nat -> string.

Definition deadlineOverpriced (edge delayRisk : Q) (timeRemainingDays : option Q)
  : OpportunitySignal :=
  {| type := DeadlineOverpriced;
     strength := Qmin 1 (Qabs edge * 5);
     direction := Bet NO;
     confidence := 0.7 + delayRisk * 0.2;
     rationale :=
       [ ("High delay risk (" ++ toFixed (delayRisk * 100) 0 ++ "%)")%string;
         ("Market overpriced by " ++ toFixed (Qabs edge * 100) 1 ++ "%")%string;
         match timeRemainingDays with
         | Some d =>
             (* [d && d < 30]: zero is falsy *)
             if negb (eqb d 0) && ltb d 30
             then ("Only " ++ toFixed d 0 ++ " days remaining")%string
             else "Procedural delays expected"%string
         | None => "Procedural delays expected"%string
         end ] |}.

Definition momentumEntry (momentum : Momentum) (velocity24h volumeZScore : Q)
  : OpportunitySignal :=
  {| type := MomentumEntry;
     strength := Qmin 1 (Qabs velocity24h * 5);
     direction := match momentum with bullish => Bet YES | _ => Bet NO end;
     confidence := 0.6 + volumeZScore * 0.1;
     rationale :=
       [ ("Strong " ++ momentumName momentum ++ " momentum")%string;
         ("Price moved " ++ toFixed (velocity24h * 100) 1 ++ "% in 24h")%string;
         ("Volume spike detected (z=" ++ toFixed volumeZScore 1 ++ ")")%string ] |}.

Definition attentionArbitrage (edge : Q) (edgeDirection : Side)
  : OpportunitySignal :=
  {| type := AttentionArbitrage;
     strength := Qabs edge * 3;
     direction := Bet edgeDirection;
     confidence := 0.65;
     rationale :=
       [ "Low market attention"%string;
         ("Significant edge: " ++ toFixed (edge * 100) 1 ++ "%")%string;
         "Potential early entry before crowd"%string ] |}.

Definition volumePrecursor (volumeZScore : Q) : OpportunitySignal :=
  {| type := VolumePrecursor;
     strength := volumeZScore / 4;
     direction := WATCH;
     confidence := 0.5;
     rationale :=
       [ "Volume spike detected"%string;
         "Price hasn't moved significantly yet"%string;
         "Possible accumulation phase"%string ] |}.

Definition meanReversion (velocity24h : Q) : OpportunitySignal :=
  {| type := MeanReversion;
     strength := Qmin 1 (Qabs velocity24h * 3);
     direction := if gtb velocity24h 0 then Bet NO else Bet YES;
     confidence := 0.55;
     rationale :=
       [ ("Extreme price move: " ++ toFixed (velocity24h * 100) 1 ++ "%")%string;
         "High volume exhaustion likely"%string;
         "Potential reversion opportunity"%string ] |}.

(** The signals in the order they are pushed, before the final sort. *)
Definition pushedSignals
    (edge : Q) (edgeDirection : Side) (delayRisk : Q) (isByDate : bool)
    (attentionScore volumeZScore : Q) (isVolumeSpike : bool)
    (momentum : Momentum) (velocity24h : Q) (timeRemainingDays : option Q)
    (liquidity : Q) : list OpportunitySignal :=
  let signals := [] in
  let signals :=
    pushIf (isByDate && gtb delayRisk 0.5 && ltb edge (-0.05))
      (deadlineOverpriced edge delayRisk timeRemainingDays) signals in
  let signals :=
    pushIf (negb (isNeutral momentum) && isVolumeSpike
            && gtb (Qabs velocity24h) 0.08)
      (momentumEntry momentum velocity24h volumeZScore) signals in
  let signals :=
    pushIf (ltb attentionScore 0.3 && gtb (Qabs edge) 0.08)
      (attentionArbitrage edge edgeDirection) signals in
  let signals :=
    pushIf (isVolumeSpike && ltb (Qabs velocity24h) 0.03)
      (volumePrecursor volumeZScore) signals in
  let signals :=
    pushIf (gtb (Qabs velocity24h) 0.15 && gtb volumeZScore 2.5)
      (meanReversion velocity24h) signals in
  signals.

Definition generateSignals
    (edge : Q) (edgeDirection : Side) (delayRisk : Q) (isByDate : bool)
    (attentionScore volumeZScore : Q) (isVolumeSpike : bool)
    (momentum : Momentum) (velocity24h : Q) (timeRemainingDays : option Q)
    (liquidity : Q) : list OpportunitySignal :=
  sortSignals
    (pushedSignals edge edgeDirection delayRisk isByDate attentionScore
       volumeZScore isVolumeSpike momentum velocity24h timeRemainingDays
       liquidity).

Definition calculateCompositeScore
    (edge delayRisk attentionScore volumeZScore liquidityScore : Q)
    (momentum : Momentum) (signals : list OpportunitySignal) : Q :=
  let score := 50 in
  (* edge contribution *)
  let score := score + Qabs edge * 100 * 0.3 in
  (* signal strength contribution *)
  let score :=
    if (0 <? List.length signals)%nat then
      let avgSignalStrength :=
        fold_left (fun sum s => sum + strength s * confidence s) signals 0
        / len signals in
      score + avgSignalStrength * 25
    else score in
  (* liquidity bonus *)
  let score := score + liquidityScore * 10 in
  (* volume activity bonus *)
  let score := score + Qmin 10 (volumeZScore * 3) in
  (* momentum alignment bonus *)
  let score := if negb (isNeutral momentum) then score + 5 else score in
  (* penalty for low attention *)
  let score := if ltb attentionScore 0.2 then score - 5 else score in
  Qmax 0 (Qmin 100 score).

Definition scoreTier (score : Q) : Tier.t :=
  if geb score 80 then Tier.S
  else if geb score 65 then Tier.A
  else if geb score 50 then Tier.B
  else if geb score 35 then Tier.C
  else Tier.D.

Definition suggestSize (kelly : Q) (tier : Tier.t) (liquidity : Q) : Size :=
  if ltb kelly 0.02 || isTierD tier then skip
  else if ltb liquidity 5000 then small
  else if geb kelly 0.15 && isTierSorA tier then large
  else if geb kelly 0.08 && negb (isTierD tier) then medium
  else small.

Record Snapshot : Type := {
  capturedAt : Deadline.Date;
  yesPrice : option Q;
  noPrice : option Q;
  volume24h : option Q;
  liquidity : option Q;
  priceChange1h : option Q;
  priceChange24h : option Q
}.

Record Market : Type := {
  id : string;
  title : string;
  description : option string;
  rules : option string;
  category : option string;
  endDate : option Deadline.Date;
  snapshots : list Snapshot
}.

Record AdvancedScore : Type := {
  score_id : string;
  score_title : string;
  score_category : option string;
  currentYesPrice : Q;
  currentNoPrice : Q;
  score_modelProb : Q;
  score_edge : Q;
  score_edgeDirection : Side;
  score_delayRisk : Q;
  volatility : Q;
  score_liquidityScore : Q;
  score_timeRemainingDays : option Q;
  urgency : Deadline.Urgency;
  score_attentionScore : Q;
  score_volumeZScore : Q;
  score_isVolumeSpike : bool;
  priceVelocity1h : Q;
  priceVelocity24h : Q;
  score_momentum : Momentum;
  signals : list OpportunitySignal;
  primarySignal : option OpportunitySignal;
  kellyFraction : Q;
  suggestedSize : Size;
  compositeScore : Q;
  tier : Tier.t
}.

Variable now : Z.
Variable sqrt : Q -> Q.

(** The body of [scoreMarketAdvanced] once [latest] and
    [currentYesPrice] have passed the two guards. *)
Definition scoreLatest (args : Market) (latest : Snapshot) (currentYesPrice : Q)
  : AdvancedScore :=
  let currentNoPrice := orElse (noPrice latest) (1 - currentYesPrice) in
  let isByDate :=
    Deadline.looksLikeByDateMarket (title args) (rules args) (description args) in
  let delayOutput :=
    Model.deadlineDelayModel now currentYesPrice (endDate args)
      (liquidity latest) (category args) in
  let edge := Model.modelProb delayOutput - currentYesPrice in
  let edgeDirection := if geb edge 0 then YES else NO in
  let timeRemaining := Deadline.timeRemainingDays now (endDate args) in
  let urgency := Deadline.deadlineUrgency timeRemaining in
  let volumeHistory :=
    filter (fun v => gtb v 0)
      (map (fun s => orElse (volume24h s) 0) (slice 1 20 (snapshots args))) in
  let volumeAnalysis :=
    Model.volumeSpikeScore sqrt toFixed (volume24h latest) volumeHistory in
  let attention :=
    Model.attentionScore (volume24h latest) (priceChange24h latest)
      (liquidity latest) in
  let liq := orElse (liquidity latest) 0 in
  let liquidityScore := Qmin 1 (liq / 50000) in
  let velocity1h := orElse (priceChange1h latest) 0 in
  let velocity24h := orElse (priceChange24h latest) 0 in
  let prices :=
    filter (fun p => gtb p 0)
      (map (fun s => orElse (yesPrice s) 0) (slice 0 20 (snapshots args))) in
  let avgPrice :=
    if (0 <? List.length prices)%nat then sum prices / len prices
    else currentYesPrice in
  let variance :=
    if (1 <? List.length prices)%nat then
      fold_left (fun sum p => sum + pow2 (p - avgPrice)) prices 0 / len prices
    else 0 in
  let volatility := sqrt variance in
  let momentum :=
    detectMomentum velocity1h velocity24h (Model.volumeZScore volumeAnalysis) in
  let signals :=
    generateSignals edge edgeDirection (Model.delayRisk delayOutput) isByDate
      attention (Model.volumeZScore volumeAnalysis)
      (Model.isSpike volumeAnalysis) momentum velocity24h timeRemaining liq in
  let kelly :=
    calculateKelly (Model.modelProb delayOutput) currentYesPrice edgeDirection in
  let compositeScore :=
    calculateCompositeScore edge (Model.delayRisk delayOutput) attention
      (Model.volumeZScore volumeAnalysis) liquidityScore momentum signals in
  let tier := scoreTier compositeScore in
  let suggestedSizeValue := suggestSize kelly tier liq in
  {| score_id := id args;
     score_title := title args;
     score_category := category args;
     currentYesPrice := currentYesPrice;
     currentNoPrice := currentNoPrice;
     score_modelProb := Model.modelProb delayOutput;
     score_edge := edge;
     score_edgeDirection := edgeDirection;
     score_delayRisk := Model.delayRisk delayOutput;
     volatility := volatility;
     score_liquidityScore := liquidityScore;
     score_timeRemainingDays := timeRemaining;
     urgency := urgency;
     score_attentionScore := attention;
     score_volumeZScore := Model.volumeZScore volumeAnalysis;
     score_isVolumeSpike := Model.isSpike volumeAnalysis;
     priceVelocity1h := velocity1h;
     priceVelocity24h := velocity24h;
     score_momentum := momentum;
     signals := signals;
     primarySignal := hd_error signals;
     kellyFraction := kelly;
     suggestedSize := suggestedSizeValue;
     compositeScore := compositeScore;
     tier := tier |}.

(** Full advanced scoring for a market; [None] is [null]. *)
Definition scoreMarketAdvanced (args : Market) : option AdvancedScore :=
  match snapshots args with
  | [] => None
  | latest :: _ =>
      let currentYesPrice := orElse (yesPrice latest) 0.5 in
      if leb currentYesPrice 0 || geb currentYesPrice 1 then None
      else Some (scoreLatest args latest currentYesPrice)
  end.
End Host.

End AdvancedScoring.

(** ** The same functions on IEEE doubles

    [calculateKelly] and [volumeSpikeScore] once more, with a [number] as
    the binary64 float it is: sums and quotients round, a quotient can
    overflow to infinity, and NaN compares false with everything. *)

Module Double.
Import PrimFloat FloatClass AdvancedScoring.
Local Open Scope float_scope.

(** [a ?? d] *)
Definition orElse (a : option float) (d : float) : float :=
  match a with
  | Some x => x
  | None => d
  end.

Definition isNegZero (x : float) : bool :=
  match classify x with
  | NZero => true
  | _ => false
  end.

(** [Math.min(x, y)]: NaN if either is NaN; -0 is below +0. *)
Definition mathMin (x y : float) : float :=
  if is_nan x || is_nan y then nan
  else if ltb x y then x
  else if ltb y x then y
  else if isNegZero x then x else y.

(** [Math.max(x, y)]: NaN if either is NaN; +0 is above -0. *)
Definition mathMax (x y : float) : float :=
  if is_nan x || is_nan y then nan
  else if ltb x y then y
  else if ltb y x then x
  else if isNegZero x then y else x.

(** Kelly criterion for position sizing. *)
Definition calculateKelly (modelProb marketPrice : float) (direction : Side) : float :=
  let p := match direction with YES => modelProb | NO => 1 - modelProb end in
  let price := match direction with YES => marketPrice | NO => 1 - marketPrice end in
  if leb price 0 || leb 1 price then 0
  else
    let b := (1 - price) / price in
    let q := 1 - p in
    let kelly := (b * p - q) / b in
    mathMax 0 (mathMin 0.25 kelly).

Record VolumeSpike : Type := {
  volumeZScore : float;
  isSpike : bool;
  spikeRationale : string
}.

(** [xs.length] as a number; exact for every length an array can have. *)
Fixpoint len (xs : list float) : float :=
  match xs with
  | [] => 0
  | _ :: xs' => len xs' + 1
  end.

(** [xs.reduce((a, b) => a + b, 0)] *)
Definition sum (xs : list float) : float := fold_left add xs 0.

(** [Math.pow(x, 2)], taken as the rounded product [x * x]; the two agree
    wherever the square is a double, as at the inputs used below. *)
Definition pow2 (x : float) : float := x * x.

Definition mean (history : list float) : float := sum history / len history.

Definition variance (history : list float) : float :=
  fold_left (fun acc v => acc + pow2 (v - mean history)) history 0 / len history.

Section Host.
(** [x.toFixed(digits)] *)
Variable toFixed : float -> nat -> string.

Definition volumeSpikeScore
    (volume24h : option float) (volumeHistory : list float) : VolumeSpike :=
  let current := orElse volume24h 0 in
  let history := filter (fun v => ltb 0 v) volumeHistory in
  if (List.length history <? 3)%nat then
    {| volumeZScore := 0;
       isSpike := false;
       spikeRationale := "Insufficient volume history" |}
  else
    let mean := mean history in
    let stdDev := sqrt (variance history) in
    if eqb stdDev 0 then
      {| volumeZScore := 0;
         isSpike := false;
         spikeRationale := "No volume variance detected" |}
    else
      let zScore := (current - mean) / stdDev in
      let isSpike := ltb 2 zScore in
      let rationale :=
        ("Current: " ++ toFixed current 0 ++ ", Mean: " ++ toFixed mean 0
           ++ ", Z: " ++ toFixed zScore 2)%string in
      {| volumeZScore := zScore;
         isSpike := isSpike;
         spikeRationale :=
           if isSpike then (rationale ++ " - SPIKE DETECTED")%string
           else rationale |}.
End Host.

(** The double nearest to 1234.56, and a history of six of it. *)
Definition flatVolume : float := 0x1.34a3d70a3d70ap+10.
Definition flatHistory : list float := repeat flatVolume 6.

End Double.

(** ** scoring.ts *)

Module Scoring.
Import JS.

Record SnapshotEcho : Type := {
  echoYesPrice : Q;
  echoLiquidity : option Q
}.

Record ScoredMarket : Type := {
  id : string;
  title : string;
  marketProb : Q;
  modelProb : Q;
  edge : Q;
  delayRisk : Q;
  timeRemainingDays : option Q;
  rationale : list string;
  snapshot : SnapshotEcho
}.

(** Score a single market for deadline delay risk; [None] is [null]. *)
Definition scoreDeadlineMarket (now : Z)
    (id title : string) (description rules category : option string)
    (endDate : option Deadline.Date) (yesPrice liquidity : option Q)
  : option ScoredMarket :=
  if negb (Deadline.looksLikeByDateMarket title rules description) then None
  else
    match yesPrice with
    | None => None
    | Some yesPrice =>
        let marketProb := Model.clamp01 yesPrice in
        let modelOutput :=
          Model.deadlineDelayModel now marketProb endDate liquidity category in
        let edge := Model.modelProb modelOutput - marketProb in
        let timeRemaining := Deadline.timeRemainingDays now endDate in
        Some {| id := id;
                title := title;
                marketProb := marketProb;
                modelProb := Model.modelProb modelOutput;
                edge := edge;
                delayRisk := Model.delayRisk modelOutput;
                timeRemainingDays := timeRemaining;
                rationale := Model.rationale modelOutput;
                snapshot := {| echoYesPrice := yesPrice;
                               echoLiquidity := liquidity |} |}
    end.

Record MovingSnapshot : Type := {
  capturedAt : Deadline.Date;
  yesPrice : option Q;
  volume24h : option Q;
  liquidity : option Q;
  priceChange1h : option Q;
  priceChange24h : option Q
}.

Record MovingScore : Type := {
  mv_id : string;
  mv_title : string;
  currentPrice : Q;
  mv_priceChange1h : option Q;
  mv_priceChange24h : option Q;
  volumeSpike : option Q;
  volumeZScore : Q;
  attentionScore : Q;
  mv_liquidity : option Q;
  velocity1h : Q;
  velocity24h : Q;
  acceleration : Q
}.

Section Host.
Variable now : Z.
Variable sqrt : Q -> Q.
Variable toFixed : Q -> nat -> string.

(** Score markets for price/volume momentum; [None] is [null]. *)
Definition scoreMovingMarket
    (id title : string) (snapshots : list MovingSnapshot) : option MovingScore :=
  match snapshots with
  | [] => None
  | latest :: _ =>
      let currentPrice := orElse (yesPrice latest) 0 in
      let volumeHistory :=
        filter (fun v => gtb v 0)
          (map (fun s => orElse (volume24h s) 0) (slice 1 20 snapshots)) in
      let volumeAnalysis :=
        Model.volumeSpikeScore sqrt toFixed (volume24h latest) volumeHistory in
      let priceHistory :=
        filter (fun p => gtb (Model.price p) 0)
          (map (fun s => {| Model.price := orElse (yesPrice s) 0;
                            Model.timestamp := capturedAt s |}) snapshots) in
      let velocity := Model.priceVelocity now priceHistory in
      let attention :=
        Model.attentionScore (volume24h latest) (priceChange24h latest)
          (liquidity latest) in
      Some {| mv_id := id;
              mv_title := title;
              currentPrice := currentPrice;
              mv_priceChange1h := priceChange1h latest;
              mv_priceChange24h := priceChange24h latest;
              volumeSpike :=
                if Model.isSpike volumeAnalysis
                then Some (Model.volumeZScore volumeAnalysis)
                else None;
              volumeZScore := Model.volumeZScore volumeAnalysis;
              attentionScore := attention;
              mv_liquidity := liquidity latest;
              velocity1h := Model.velocity1h velocity;
              velocity24h := Model.velocity24h velocity;
              acceleration := Model.acceleration velocity |}
  end.
End Host.

(** Rank scored markets by edge magnitude; the input is copied first. *)
Definition rankByEdge (markets : list ScoredMarket) : list ScoredMarket :=
  JSArray.sortWith (fun a b => Qabs (edge b) - Qabs (edge a)) markets.

(** Filter markets by minimum edge threshold, 0.05 when not given. *)
Definition filterByEdge (markets : list ScoredMarket) (minEdge : option Q)
  : list ScoredMarket :=
  let minEdge := orElse minEdge 0.05 in
  filter (fun m => geb (Qabs (edge m)) minEdge) markets.

(** [markets.filter(m => m !== null)] *)
Fixpoint nonNull {A : Type} (l : list (option A)) : list A :=
  match l with
  | [] => []
  | Some a :: l' => a :: nonNull l'
  | None :: l' => nonNull l'
  end.

(** Rank moving markets by attention score. *)
Definition rankByAttention (markets : list (option MovingScore)) : list MovingScore :=
  JSArray.sortWith (fun a b => attentionScore b - attentionScore a) (nonNull markets).

Inductive Opportunity : Type :=
| DeadlineUndervalued (market : ScoredMarket) (reason : string) (edge attention : Q)
| Momentum (market : MovingScore) (reason : string) (attention : Q)
    (priceChange : option Q).

(** [moving?.attentionScore ?? 0] for the result of [find]. *)
Definition attentionOf (moving : option (option MovingScore)) : Q :=
  match moving with
  | Some (Some m) => attentionScore m
  | _ => 0
  end.

(** [m?.id === id] *)
Definition hasId (id : string) (m : option MovingScore) : bool :=
  match m with
  | Some m => String.eqb (mv_id m) id
  | None => false
  end.

(** The first loop of [detectOpportunities]. *)
Definition deadlineOpportunities (deadlineScores : list ScoredMarket)
    (movingScores : list (option MovingScore)) (minEdge minAttention : Q)
  : list Opportunity :=
  fold_left
    (fun opportunities scored =>
       let moving := find (hasId (id scored)) movingScores in
       if geb (Qabs (edge scored)) minEdge && ltb (attentionOf moving) minAttention
       then opportunities
              ++ [DeadlineUndervalued scored "High edge, low attention"
                    (edge scored) (attentionOf moving)]
       else opportunities)
    deadlineScores [].

(** The second loop, continuing the array of the first. *)
Definition momentumOpportunities (movingScores : list (option MovingScore))
    (minAttention : Q) (opportunities : list Opportunity) : list Opportunity :=
  fold_left
    (fun opportunities moving =>
       match moving with
       | None => opportunities
       | Some moving =>
           if geb (attentionScore moving) minAttention
              && gtb (Qabs (orElse (mv_priceChange24h moving) 0)) 0.1
           then opportunities
                  ++ [Momentum moving "High attention + strong price movement"
                        (attentionScore moving) (mv_priceChange24h moving)]
           else opportunities
       end)
    movingScores opportunities.

(** Detect opportunities (markets with edge + attention). *)
Definition detectOpportunities (deadlineScores : list ScoredMarket)
    (movingScores : list (option MovingScore)) (minEdge minAttention : option Q)
  : list Opportunity :=
  let minEdge := orElse minEdge 0.05 in
  let minAttention := orElse minAttention 0.3 in
  momentumOpportunities movingScores minAttention
    (deadlineOpportunities deadlineScores movingScores minEdge minAttention).

End Scoring.

(** ** Reference host functions

    Concrete instances of the host parameters, for the worked examples. *)

Module Host.

(** Square root, exact on squares of rationals: [sqrt (n/d)] is the integer
    square root of [n * d], over [d]. *)
Definition sqrt (x : Q) : Q := Z.sqrt (Qnum x * Zpos (Qden x)) # Qden x.

Definition digitsOf (n : Z) : string := NilZero.string_of_uint (N.to_uint (Z.to_N n)).

Fixpoint zeros (n : nat) : string :=
  match n with
  | O => EmptyString
  | S n' => String "0" (zeros n')
  end.

(** [x.toFixed(digits)]: the magnitude is rounded to the nearest multiple of
    [10^-digits], a tie going up; a negative [x] keeps its sign. *)
Definition toFixed (x : Q) (digits : nat) : string :=
  let scale := (10 ^ Z.of_nat digits)%Z in
  let n := Qfloor (Qabs x * inject_Z scale + (1 # 2)) in
  let whole := digitsOf (n / scale) in
  let frac := digitsOf (n mod scale) in
  let sign := if JS.ltb x 0 then "-"%string else EmptyString in
  match digits with
  | O => (sign ++ whole)%string
  | _ => (sign ++ whole ++ "." ++ zeros (digits - String.length frac) ++ frac)%string
  end.

End Host.

(** ** Example markets *)

Module Examples.
Import AdvancedScoring.

Definition snapshotOf (yes volume liq change24h : option Q) : Snapshot :=
  {| capturedAt := Deadline.MkDate 0;
     yesPrice := yes;
     noPrice := None;
     volume24h := volume;
     liquidity := liq;
     priceChange1h := None;
     priceChange24h := change24h |}.

Definition pastVolume (v : Q) : Snapshot :=
  snapshotOf (Some 0.20) (Some v) (Some 2000) None.

(** A thin political market, 5 days from its end date at time 0, whose
    volume jumps to 500000 against a history of mean 100000. *)
Definition spikeMarket : Market :=
  {| id := "m1";
     title := "Will the bill pass by March 31, 2026?";
     description := None;
     rules := None;
     category := Some "Politics"%string;
     endDate := Some (Deadline.MkDate (5 * 86400000));
     snapshots :=
       [ snapshotOf (Some 0.20) (Some 500000) (Some 2000) (Some 0.01);
         pastVolume 50000; pastVolume 150000; pastVolume 50000;
         pastVolume 150000 ] |}.

(** A market whose newest snapshot quotes no price at all. *)
Definition unquotedMarket : Market :=
  {| id := "m2";
     title := "Who wins the election";
     description := None;
     rules := None;
     category := None;
     endDate := None;
     snapshots := [ snapshotOf None None None None ] |}.

End Examples.

(** * Properties *)

(** ** Comparisons and clamping *)

Section Comparisons.
Import JS.

Lemma leb_le (x y : Q) : leb x y = true <-> x <= y.
Proof. unfold leb. apply Qle_bool_iff. Qed.

Lemma ltb_lt (x y : Q) : ltb x y = true <-> x < y.
Proof.
  unfold ltb. rewrite negb_true_iff.
  destruct (Qle_bool y x) eqn:E.
  - apply Qle_bool_iff in E. split; [discriminate | intro H; lra].
  - split; [intros _ | reflexivity].
    apply Qnot_le_lt. intro H. apply Qle_bool_iff in H. congruence.
Qed.

Lemma ltb_ge (x y : Q) : ltb x y = false <-> y <= x.
Proof.
  unfold ltb. rewrite negb_false_iff. apply Qle_bool_iff.
Qed.

Lemma leb_gt (x y : Q) : leb x y = false <-> y < x.
Proof.
  rewrite <- ltb_lt. unfold ltb, leb.
  destruct (Qle_bool x y); simpl; split; congruence.
Qed.

Lemma gtb_lt (x y : Q) : gtb x y = true <-> y < x.
Proof. unfold gtb. apply ltb_lt. Qed.

Lemma gtb_le (x y : Q) : gtb x y = false <-> x <= y.
Proof. unfold gtb. apply ltb_ge. Qed.

Lemma geb_le (x y : Q) : geb x y = true <-> y <= x.
Proof. unfold geb. apply leb_le. Qed.

Lemma geb_gt (x y : Q) : geb x y = false <-> x < y.
Proof. unfold geb. apply leb_gt. Qed.

Lemma eqb_eq (x y : Q) : eqb x y = true <-> x == y.
Proof. unfold eqb. apply Qeq_bool_iff. Qed.

Lemma eqb_neq (x y : Q) : eqb x y = false <-> ~ x == y.
Proof.
  rewrite <- eqb_eq. destruct (eqb x y); split; congruence.
Qed.

End Comparisons.

Ltac cmp_cases :=
  repeat match goal with
    | |- context [JS.ltb ?x ?y] =>
        let E := fresh "E" in
        destruct (JS.ltb x y) eqn:E;
        [apply ltb_lt in E | apply ltb_ge in E]
    | |- context [JS.leb ?x ?y] =>
        let E := fresh "E" in
        destruct (JS.leb x y) eqn:E;
        [apply leb_le in E | apply leb_gt in E]
    | |- context [JS.gtb ?x ?y] =>
        let E := fresh "E" in
        destruct (JS.gtb x y) eqn:E;
        [apply gtb_lt in E | apply gtb_le in E]
    | |- context [JS.geb ?x ?y] =>
        let E := fresh "E" in
        destruct (JS.geb x y) eqn:E;
        [apply geb_le in E | apply geb_gt in E]
    end.

Section Clamp.
Import Model.

Lemma clamp01_range (n : Q) : 0 <= clamp01 n <= 1.
Proof.
  unfold clamp01. split.
  - apply Q.le_max_l.
  - apply Q.max_lub; [lra | apply Q.le_min_l].
Qed.

Lemma clamp01_mono (x y : Q) : x <= y -> clamp01 x <= clamp01 y.
Proof.
  intro H. unfold clamp01.
  apply Q.max_le_compat_l, Q.min_le_compat_l, H.
Qed.

Lemma clamp01_low (x : Q) : x <= 0 -> clamp01 x == 0.
Proof.
  intro H. unfold clamp01.
  rewrite Q.max_l; [reflexivity |].
  apply Qle_trans with x; [apply Q.le_min_r | exact H].
Qed.

Lemma clamp01_high (x : Q) : 1 <= x -> clamp01 x == 1.
Proof.
  intro H. unfold clamp01.
  rewrite (Q.min_l 1 x H). apply Q.max_r. lra.
Qed.

End Clamp.

(** ** The probability model *)

Section DelayModel.
Import JS Model.

Lemma timeRemainingDays_ahead (now k : Z) :
  (0 < k)%Z ->
  Deadline.timeRemainingDays now (Some (Deadline.MkDate (now + k)))
  = Some (inject_Z k / Deadline.msPerDay).
Proof.
  intro Hk. unfold Deadline.timeRemainingDays.
  replace (now + k - now)%Z with k by lia.
  assert (H : gtb (inject_Z k) 0 = true).
  { apply gtb_lt. replace 0 with (inject_Z 0) by reflexivity.
    rewrite <- Zlt_Qlt. exact Hk. }
  rewrite H. reflexivity.
Qed.

Lemma timeRemainingDays_nonneg (now : Z) (endDate : option Deadline.Date) (d : Q) :
  Deadline.timeRemainingDays now endDate = Some d -> 0 <= d.
Proof.
  destruct endDate as [[e|]|]; simpl; try discriminate.
  - intro H. injection H as <-. cmp_cases; [| lra].
    unfold Deadline.msPerDay. apply Qle_shift_div_l; lra.
  - intro H. injection H as <-. lra.
Qed.

(** An end date that is later in time has at least as many days remaining. *)
Lemma timeRemainingDays_mono (now t1 t2 : Z) (d1 d2 : Q) :
  (t1 <= t2)%Z ->
  Deadline.timeRemainingDays now (Some (Deadline.MkDate t1)) = Some d1 ->
  Deadline.timeRemainingDays now (Some (Deadline.MkDate t2)) = Some d2 ->
  d1 <= d2.
Proof.
  intros Ht H1 H2. simpl in H1, H2.
  injection H1 as <-. injection H2 as <-.
  assert (Hq : inject_Z (t1 - now) <= inject_Z (t2 - now)).
  { rewrite <- Zle_Qle. lia. }
  unfold Deadline.msPerDay.
  cmp_cases.
  - apply Qmult_le_compat_r; [exact Hq |]. vm_compute. discriminate.
  - lra.
  - apply Qle_shift_div_l; lra.
  - lra.
Qed.

Lemma timeStep_antitone (d1 d2 : Q) (st : locals) :
  d1 <= d2 ->
  delayPenalty (timeStep d2 st) <= delayPenalty (timeStep d1 st).
Proof.
  intro H. unfold timeStep. cmp_cases; simpl; lra.
Qed.

Lemma liquidityStep_mono (liquidity : option Q) (st st' : locals) :
  delayPenalty st <= delayPenalty st' ->
  delayPenalty (liquidityStep liquidity st)
  <= delayPenalty (liquidityStep liquidity st').
Proof.
  intro H. unfold liquidityStep. cmp_cases; simpl; lra.
Qed.

Lemma categoryStep_mono (category : option string) (st st' : locals) :
  delayPenalty st <= delayPenalty st' ->
  delayPenalty (categoryStep category st)
  <= delayPenalty (categoryStep category st').
Proof.
  intro H. unfold categoryStep.
  repeat match goal with
         | |- context [if ?b then _ else _] => destruct b
         end; simpl; lra.
Qed.

Lemma accumulate_antitone (d1 d2 : Q) (liquidity : option Q) (category : option string) :
  d1 <= d2 ->
  delayPenalty (accumulate d2 liquidity category)
  <= delayPenalty (accumulate d1 liquidity category).
Proof.
  intro H. unfold accumulate.
  apply categoryStep_mono, liquidityStep_mono, timeStep_antitone, H.
Qed.

(** The accumulated penalty is positive and at most 0.25 + 0.08 + 0.08. *)
Lemma accumulate_bounds (days : Q) (liquidity : option Q) (category : option string) :
  0.02 <= delayPenalty (accumulate days liquidity category) <= 0.41.
Proof.
  unfold accumulate, categoryStep, liquidityStep, timeStep.
  repeat match goal with
         | |- context [if ?b then _ else _] => destruct b
         end; simpl; lra.
Qed.

Lemma deadlineDelayModel_range (now : Z) (marketProb : Q)
    (endDate : option Deadline.Date) (liquidity : option Q)
    (category : option string) :
  let out := deadlineDelayModel now marketProb endDate liquidity category in
  (0 <= modelProb out <= 1) /\ (0 <= delayRisk out <= 1).
Proof.
  unfold deadlineDelayModel.
  destruct (Deadline.timeRemainingDays now endDate) as [days|]; simpl.
  - split; apply clamp01_range.
  - split; [apply clamp01_range | lra].
Qed.

End DelayModel.

Section DelayModelClaims.
Import JS Model.

(** C5: for every market probability in [0,1] and every end date,
    liquidity and category, [deadlineDelayModel] returns a model
    probability in [0,1] and a delay risk in [0,1]. *)
Theorem deadlineDelayModel_clamp_invariant
    (now : Z) (marketProb : Q) (endDate : option Deadline.Date)
    (liquidity : option Q) (category : option string) :
  0 <= marketProb <= 1 ->
  let out := deadlineDelayModel now marketProb endDate liquidity category in
  (0 <= modelProb out <= 1) /\ (0 <= delayRisk out <= 1).
Proof.
  intros _. apply deadlineDelayModel_range.
Qed.

Lemma deadlineDelayModel_clamp_invariant_witness :
  0 <= 0.75 <= 1 /\
  let out :=
    deadlineDelayModel 0 0.75 (Some (Deadline.MkDate 3456000000)) (Some 12000)
      (Some "Crypto"%string) in
  (0 <= modelProb out <= 1) /\ (0 <= delayRisk out <= 1).
Proof.
  assert (H : 0 <= 0.75 <= 1) by (split; vm_compute; discriminate).
  split; [exact H |].
  exact (deadlineDelayModel_clamp_invariant 0 0.75
           (Some (Deadline.MkDate 3456000000)) (Some 12000)
           (Some "Crypto"%string) H).
Defined.

(** C2: a market priced at 0.20 whose end date is 5 days ahead, with
    liquidity 2000 and category "Politics": the penalty accumulates to
    0.25 + 0.08 + 0.03 = 0.36, the delay risk is 1, the model probability is
    0, and the edge (model probability minus market probability) is -0.20. *)
Theorem deadlineDelayModel_politics_example (now : Z) :
  let endDate := Some (Deadline.MkDate (now + 5 * 86400000)) in
  let out := deadlineDelayModel now 0.20 endDate (Some 2000) (Some "Politics"%string) in
  exists days,
    Deadline.timeRemainingDays now endDate = Some days /\
    days == 5 /\
    delayPenalty (timeStep days {| delayPenalty := 0; conf := 0.7; notes := [] |})
      == 0.25 /\
    delayPenalty (accumulate days (Some 2000) (Some "Politics"%string))
      == 0.25 + 0.08 + 0.03 /\
    delayPenalty (accumulate days (Some 2000) (Some "Politics"%string)) == 0.36 /\
    delayRisk out == 1 /\
    modelProb out == 0 /\
    modelProb out - 0.20 == -0.20.
Proof.
  intros endDate out.
  assert (Hd : Deadline.timeRemainingDays now endDate
               = Some (inject_Z (5 * 86400000) / Deadline.msPerDay)).
  { apply timeRemainingDays_ahead. lia. }
  exists (inject_Z (5 * 86400000) / Deadline.msPerDay).
  split; [exact Hd |].
  unfold out, deadlineDelayModel. rewrite Hd.
  repeat split; vm_compute; reflexivity.
Qed.

(** C4: with market probability, liquidity and category fixed, of two end
    dates the one with fewer days remaining has a delay penalty at least as
    large; hence a model probability at most as large and a delay risk at
    least as large. *)
Theorem delayPenalty_monotone
    (now : Z) (marketProb : Q) (liquidity : option Q) (category : option string)
    (e1 e2 : Deadline.Date) (d1 d2 : Q) :
  Deadline.timeRemainingDays now (Some e1) = Some d1 ->
  Deadline.timeRemainingDays now (Some e2) = Some d2 ->
  d1 <= d2 ->
  let out1 := deadlineDelayModel now marketProb (Some e1) liquidity category in
  let out2 := deadlineDelayModel now marketProb (Some e2) liquidity category in
  delayPenalty (accumulate d2 liquidity category)
    <= delayPenalty (accumulate d1 liquidity category)
  /\ modelProb out1 <= modelProb out2
  /\ delayRisk out2 <= delayRisk out1.
Proof.
  intros H1 H2 Hle out1 out2.
  pose proof (accumulate_antitone d1 d2 liquidity category Hle) as Hp.
  split; [exact Hp |].
  unfold out1, out2, deadlineDelayModel. rewrite H1, H2. simpl.
  split; apply clamp01_mono.
  - lra.
  - apply Qmult_le_compat_r; [exact Hp |]. vm_compute. discriminate.
Qed.

Lemma delayPenalty_monotone_witness :
  let e1 := Deadline.MkDate 432000000 in
  let e2 := Deadline.MkDate 3456000000 in
  let d1 := 432000000 # 86400000 in
  let d2 := 3456000000 # 86400000 in
  let out1 := deadlineDelayModel 0 0.6 (Some e1) (Some 2000) (Some "Politics"%string) in
  let out2 := deadlineDelayModel 0 0.6 (Some e2) (Some 2000) (Some "Politics"%string) in
  Deadline.timeRemainingDays 0 (Some e1) = Some d1 /\
  Deadline.timeRemainingDays 0 (Some e2) = Some d2 /\
  d1 <= d2 /\
  delayPenalty (accumulate d2 (Some 2000) (Some "Politics"%string))
    <= delayPenalty (accumulate d1 (Some 2000) (Some "Politics"%string))
  /\ modelProb out1 <= modelProb out2
  /\ delayRisk out2 <= delayRisk out1.
Proof.
  intros e1 e2 d1 d2 out1 out2.
  assert (H1 : Deadline.timeRemainingDays 0 (Some e1) = Some d1) by reflexivity.
  assert (H2 : Deadline.timeRemainingDays 0 (Some e2) = Some d2) by reflexivity.
  assert (H3 : d1 <= d2) by (vm_compute; discriminate).
  split; [exact H1 |]. split; [exact H2 |]. split; [exact H3 |].
  exact (delayPenalty_monotone 0 0.6 (Some 2000) (Some "Politics"%string)
           e1 e2 d1 d2 H1 H2 H3).
Defined.

End DelayModelClaims.

(** ** The position sizer *)

Section Kelly.
Import JS AdvancedScoring.

Lemma cap_range (c x : Q) : 0 <= c -> 0 <= Qmax 0 (Qmin c x) <= c.
Proof.
  intro Hc. split.
  - apply Q.le_max_l.
  - apply Q.max_lub; [exact Hc | apply Q.le_min_l].
Qed.

Lemma calculateKelly_range (modelProb marketPrice : Q) (direction : Side) :
  0 <= calculateKelly modelProb marketPrice direction <= 0.25.
Proof.
  unfold calculateKelly.
  destruct (leb _ 0 || geb _ 1).
  - lra.
  - apply cap_range. lra.
Qed.

Lemma calculateKelly_degenerate (modelProb marketPrice : Q) (direction : Side) :
  marketPrice <= 0 \/ 1 <= marketPrice ->
  calculateKelly modelProb marketPrice direction = 0.
Proof.
  intro H. unfold calculateKelly.
  destruct direction; cmp_cases; simpl; try reflexivity; lra.
Qed.

(** Without overflow and rounding, that is on exact rationals, the result
    of [calculateKelly] lies in [0, 0.25] for every input, and it is 0 when
    the market price is 0 or 1, for either direction. *)
Lemma calculateKelly_exact (modelProb marketPrice : Q) (direction : Side) :
  (0 <= calculateKelly modelProb marketPrice direction <= 0.25)
  /\ (marketPrice == 0 \/ marketPrice == 1 ->
      calculateKelly modelProb marketPrice direction == 0).
Proof.
  split.
  - apply calculateKelly_range.
  - intro H. rewrite calculateKelly_degenerate; [reflexivity |].
    destruct H as [H | H]; rewrite H; [left | right]; lra.
Qed.

(** The worked example of the position sizer: model probability 0.6 against
    a price of 0.4 gives the Kelly fraction 1/3, capped at 0.25. *)
Lemma calculateKelly_example :
  calculateKelly 0.6 0.4 YES == 0.25
  /\ ((1 - 0.4) / 0.4 * 0.6 - (1 - 0.6)) / ((1 - 0.4) / 0.4) == 1 # 3.
Proof.
  split; vm_compute; reflexivity.
Qed.

End Kelly.

Section KellyDouble.
Import PrimFloat AdvancedScoring.
Local Open Scope float_scope.

(** The Kelly ratio (b * p - q) / b at the price 5e-324, the smallest
    positive double: the odds b overflow. *)
Lemma kelly_ratio_overflow :
  let price := 0x1p-1074 in
  let b := (1 - price) / price in
  b = infinity /\ b * 0.5 - (1 - 0.5) = infinity
  /\ is_nan ((b * 0.5 - (1 - 0.5)) / b) = true.
Proof.
  vm_compute. repeat split.
Qed.

(** C3 fails on the code.  The guard [price <= 0 || price >= 1] lets the
    smallest positive double, 5e-324, through.  There the odds
    (1 - price) / price overflow to infinity, the Kelly ratio is
    infinity / infinity, which is NaN, and [Math.min] and [Math.max] hand
    NaN on: the result is NaN, neither at least 0 nor at most 0.25.  The
    second half of the claim holds on doubles too: at a market price of 0
    or of 1 the result is 0 for every model probability and either
    direction. *)
Theorem calculateKelly_nan_at_smallest_price :
  let price := 0x1p-1074 in
  let kelly := Double.calculateKelly 0.5 price YES in
  (ltb 0 price = true /\ ltb price 1 = true)
  /\ is_nan kelly = true
  /\ leb 0 kelly = false
  /\ leb kelly 0.25 = false
  /\ (forall modelProb direction,
        Double.calculateKelly modelProb 0 direction = 0
        /\ Double.calculateKelly modelProb 1 direction = 0).
Proof.
  cbv zeta.
  split; [split; vm_compute; reflexivity |].
  split; [vm_compute; reflexivity |].
  split; [vm_compute; reflexivity |].
  split; [vm_compute; reflexivity |].
  intros modelProb direction. destruct direction; split; reflexivity.
Qed.

(** Away from the overflow the two models agree on the worked example:
    model probability 0.5 against a price of 0.25 gives the fraction 1/3,
    capped at 0.25. *)
Lemma calculateKelly_double_example :
  Double.calculateKelly 0.5 0.25 YES = 0.25
  /\ Double.calculateKelly 0.5 0.25 NO = 0.
Proof.
  split; vm_compute; reflexivity.
Qed.

End KellyDouble.

(** ** The volume-spike detector *)

Section VolumeSpike.
Import JS Model.

Variable sqrt : Q -> Q.
Variable toFixed : Q -> nat -> string.

Lemma positive_filter (volumeHistory : list Q) (v : Q) :
  In v (filter (fun v => gtb v 0) volumeHistory) <-> In v volumeHistory /\ 0 < v.
Proof.
  rewrite filter_In, gtb_lt. reflexivity.
Qed.

Lemma volumeSpikeScore_sparse (volume24h : option Q) (volumeHistory : list Q) :
  (List.length (filter (fun v => gtb v 0) volumeHistory) < 3)%nat ->
  volumeSpikeScore sqrt toFixed volume24h volumeHistory
  = {| volumeZScore := 0;
       isSpike := false;
       spikeRationale := "Insufficient volume history" |}.
Proof.
  intro H. unfold volumeSpikeScore.
  apply Nat.ltb_lt in H. rewrite H. reflexivity.
Qed.

Lemma volumeSpikeScore_flat (volume24h : option Q) (volumeHistory : list Q) :
  (3 <= List.length (filter (fun v => gtb v 0) volumeHistory))%nat ->
  stdDev sqrt (filter (fun v => gtb v 0) volumeHistory) == 0 ->
  volumeSpikeScore sqrt toFixed volume24h volumeHistory
  = {| volumeZScore := 0;
       isSpike := false;
       spikeRationale := "No volume variance detected" |}.
Proof.
  intros Hn Hs. unfold volumeSpikeScore.
  apply Nat.ltb_ge in Hn. rewrite Hn.
  apply eqb_eq in Hs. rewrite Hs. reflexivity.
Qed.

Lemma volumeSpikeScore_scored (volume24h : option Q) (volumeHistory : list Q) :
  let history := filter (fun v => gtb v 0) volumeHistory in
  let z := (orElse volume24h 0 - mean history) / stdDev sqrt history in
  (3 <= List.length history)%nat ->
  ~ stdDev sqrt history == 0 ->
  volumeZScore (volumeSpikeScore sqrt toFixed volume24h volumeHistory) = z
  /\ isSpike (volumeSpikeScore sqrt toFixed volume24h volumeHistory) = gtb z 2.0.
Proof.
  intros history z Hn Hs. unfold volumeSpikeScore.
  apply Nat.ltb_ge in Hn. fold history. rewrite Hn.
  apply eqb_neq in Hs. rewrite Hs. simpl. split; reflexivity.
Qed.

(** A history of fewer than 3 entries is sparse whatever its values. *)
Lemma volumeSpikeScore_short_history (volume24h : option Q) (volumeHistory : list Q) :
  (List.length volumeHistory < 3)%nat ->
  volumeZScore (volumeSpikeScore sqrt toFixed volume24h volumeHistory) = 0
  /\ isSpike (volumeSpikeScore sqrt toFixed volume24h volumeHistory) = false.
Proof.
  intro H. rewrite volumeSpikeScore_sparse; [split; reflexivity |].
  eapply Nat.le_lt_trans; [apply filter_length_le | exact H].
Qed.

(** Without rounding, that is on exact rationals and for any [sqrt]:
    [volumeSpikeScore] keeps the strictly positive values of the history.
    When fewer than 3 remain, or their population standard deviation is 0,
    the z-score is 0 and there is no spike.  Otherwise the spike flag holds
    exactly when (current - mean) / stdDev > 2.0. *)
Lemma volumeSpikeScore_exact
    (volume24h : option Q) (volumeHistory : list Q) :
  let history := filter (fun v => gtb v 0) volumeHistory in
  let current := orElse volume24h 0 in
  let r := volumeSpikeScore sqrt toFixed volume24h volumeHistory in
  (forall v, In v history <-> In v volumeHistory /\ 0 < v)
  /\ ((List.length history < 3)%nat \/ stdDev sqrt history == 0 ->
      volumeZScore r = 0 /\ isSpike r = false)
  /\ (~ ((List.length history < 3)%nat \/ stdDev sqrt history == 0) ->
      volumeZScore r = (current - mean history) / stdDev sqrt history
      /\ (isSpike r = true
          <-> 2.0 < (current - mean history) / stdDev sqrt history)).
Proof.
  intros history current r. split; [| split].
  - intro v. apply positive_filter.
  - intros [Hn | Hs].
    + unfold r. rewrite volumeSpikeScore_sparse by exact Hn. split; reflexivity.
    + destruct (Nat.lt_ge_cases (List.length history) 3) as [Hn | Hn].
      * unfold r. rewrite volumeSpikeScore_sparse by exact Hn. split; reflexivity.
      * unfold r. rewrite volumeSpikeScore_flat by assumption. split; reflexivity.
  - intro H.
    assert (Hn : (3 <= List.length history)%nat).
    { destruct (Nat.lt_ge_cases (List.length history) 3) as [Hn | Hn];
        [exfalso; apply H; left; exact Hn | exact Hn]. }
    assert (Hs : ~ stdDev sqrt history == 0).
    { intro Hs. apply H. right. exact Hs. }
    destruct (volumeSpikeScore_scored volume24h volumeHistory Hn Hs) as [Hz Hi].
    unfold r. rewrite Hz, Hi. split; [reflexivity | apply gtb_lt].
Qed.

End VolumeSpike.

Section VolumeSpikeExamples.
Import JS Model.

(** A history whose positive part is too short, and the worked example:
    volume 500000 against a history of mean 100000 and standard deviation
    50000 has z-score 8 and is a spike. *)
Lemma volumeSpikeScore_exact_example :
  let sparse := [5; 0; 7; -3] in
  let dense := [50000; 150000; 50000; 150000] in
  let r0 := volumeSpikeScore Host.sqrt Host.toFixed (Some 9) sparse in
  let r1 := volumeSpikeScore Host.sqrt Host.toFixed (Some 500000) dense in
  ((List.length (filter (fun v => gtb v 0) sparse) < 3)%nat
   \/ stdDev Host.sqrt (filter (fun v => gtb v 0) sparse) == 0)
  /\ (volumeZScore r0 = 0 /\ isSpike r0 = false)
  /\ ~ ((List.length (filter (fun v => gtb v 0) dense) < 3)%nat
        \/ stdDev Host.sqrt (filter (fun v => gtb v 0) dense) == 0)
  /\ mean dense == 100000
  /\ stdDev Host.sqrt dense == 50000
  /\ volumeZScore r1 == 8
  /\ isSpike r1 = true.
Proof.
  intros sparse dense r0 r1.
  assert (H0 : (List.length (filter (fun v => gtb v 0) sparse) < 3)%nat
               \/ stdDev Host.sqrt (filter (fun v => gtb v 0) sparse) == 0).
  { left. vm_compute. lia. }
  assert (H1 : ~ ((List.length (filter (fun v => gtb v 0) dense) < 3)%nat
                  \/ stdDev Host.sqrt (filter (fun v => gtb v 0) dense) == 0)).
  { intros [H | H]; vm_compute in H; [lia | discriminate]. }
  pose proof (volumeSpikeScore_exact Host.sqrt Host.toFixed
                (Some 9) sparse) as T0.
  pose proof (volumeSpikeScore_exact Host.sqrt Host.toFixed
                (Some 500000) dense) as T1.
  split; [exact H0 |].
  split; [exact (proj1 (proj2 T0) H0) |].
  split; [exact H1 |].
  split; [vm_compute; reflexivity |].
  split; [vm_compute; reflexivity |].
  destruct (proj2 (proj2 T1) H1) as [Hz Hi].
  split.
  - fold r1 in Hz. rewrite Hz. vm_compute. reflexivity.
  - apply Hi. vm_compute. reflexivity.
Qed.

End VolumeSpikeExamples.

Section VolumeSpikeDouble.
Import PrimFloat.
Local Open Scope float_scope.

Variable toFixed : float -> nat -> string.

(** The mean of six equal doubles need not be that double: the running sum
    rounds, and the quotient lands one step below. *)
Lemma mean_of_equal_values_rounds :
  Double.sum Double.flatHistory = 0x1.cef5c28f5c28ep+12
  /\ Double.mean Double.flatHistory = 0x1.34a3d70a3d709p+10
  /\ ltb (Double.mean Double.flatHistory) Double.flatVolume = true
  /\ Double.flatVolume - Double.mean Double.flatHistory = 0x1p-42
  /\ Double.variance Double.flatHistory = 0x1p-84
  /\ sqrt (Double.variance Double.flatHistory) = 0x1p-42.
Proof.
  vm_compute. repeat split.
Qed.

(** C6 fails on the code.  Six history values of 1234.56 each are all
    positive and all equal, so their population standard deviation is 0 and
    the claim gives z-score 0 and no spike.  In the code the mean is a
    rounded sum over the count, 1234.5599999999997, one step below the
    values; every deviation is 2^-42 (2.27e-13), and so is the computed
    standard deviation.  The test [stdDev === 0] fails, the division goes
    ahead, and a current volume of 1300 gets a z-score of about 2.9e14 and
    the spike flag; a current volume of 1234.56, the very value of the
    history, gets the z-score 1. *)
Theorem volumeSpikeScore_flat_history_spikes :
  let r := Double.volumeSpikeScore toFixed (Some 1300) Double.flatHistory in
  let r' := Double.volumeSpikeScore toFixed (Some Double.flatVolume) Double.flatHistory in
  filter (fun v => ltb 0 v) Double.flatHistory = Double.flatHistory
  /\ (forall v, In v Double.flatHistory -> v = Double.flatVolume)
  /\ eqb (sqrt (Double.variance Double.flatHistory)) 0 = false
  /\ Double.volumeZScore r = 287808163686647
  /\ Double.isSpike r = true
  /\ Double.volumeZScore r' = 1
  /\ Double.isSpike r' = false.
Proof.
  cbv zeta.
  split; [vm_compute; reflexivity |].
  split; [intros v Hv; apply repeat_spec in Hv; exact Hv |].
  split; [vm_compute; reflexivity |].
  split; [vm_compute; reflexivity |].
  split; [vm_compute; reflexivity |].
  split; vm_compute; reflexivity.
Qed.

(** With fewer than 3 positive values the result is neutral on doubles
    too, whatever the current volume. *)
Lemma volumeSpikeScore_double_sparse (volume24h : option float) (volumeHistory : list float) :
  (List.length (filter (fun v => ltb 0 v) volumeHistory) < 3)%nat ->
  Double.volumeZScore (Double.volumeSpikeScore toFixed volume24h volumeHistory) = 0
  /\ Double.isSpike (Double.volumeSpikeScore toFixed volume24h volumeHistory) = false.
Proof.
  intro H. unfold Double.volumeSpikeScore.
  apply Nat.ltb_lt in H. rewrite H. split; reflexivity.
Qed.

End VolumeSpikeDouble.

(** ** The signal generator *)

Section Signals.
Import JS AdvancedScoring.

(** [a] may stand before [b] in the final ordering. *)
Definition before (a b : OpportunitySignal) : Prop := weight b <= weight a.

Lemma before_trans (a b c : OpportunitySignal) : before a b -> before b c -> before a c.
Proof.
  unfold before. intros H1 H2. lra.
Qed.

Lemma insertSignal_In (a x : OpportunitySignal) (l : list OpportunitySignal) :
  In x (insertSignal a l) <-> x = a \/ In x l.
Proof.
  induction l as [| b l IH]; simpl.
  - intuition congruence.
  - destruct (leb (compareSignals a b) 0); simpl.
    + intuition congruence.
    + rewrite IH. intuition congruence.
Qed.

Lemma sortSignals_In (x : OpportunitySignal) (l : list OpportunitySignal) :
  In x (sortSignals l) <-> In x l.
Proof.
  induction l as [| a l IH]; simpl.
  - reflexivity.
  - rewrite insertSignal_In, IH. intuition congruence.
Qed.

Lemma insertSignal_length (a : OpportunitySignal) (l : list OpportunitySignal) :
  List.length (insertSignal a l) = Datatypes.S (List.length l).
Proof.
  induction l as [| b l IH]; simpl.
  - reflexivity.
  - destruct (leb (compareSignals a b) 0); simpl; [reflexivity | now rewrite IH].
Qed.

Lemma sortSignals_length (l : list OpportunitySignal) :
  List.length (sortSignals l) = List.length l.
Proof.
  induction l as [| a l IH]; simpl.
  - reflexivity.
  - rewrite insertSignal_length, IH. reflexivity.
Qed.

Lemma insertSignal_Permutation (a : OpportunitySignal) (l : list OpportunitySignal) :
  Permutation (a :: l) (insertSignal a l).
Proof.
  induction l as [| b l IH]; simpl.
  - apply Permutation_refl.
  - destruct (leb (compareSignals a b) 0).
    + apply Permutation_refl.
    + eapply perm_trans; [apply perm_swap | apply perm_skip, IH].
Qed.

(** The sort only reorders: no signal is lost or repeated. *)
Lemma sortSignals_Permutation (l : list OpportunitySignal) :
  Permutation l (sortSignals l).
Proof.
  induction l as [| a l IH]; simpl.
  - apply perm_nil.
  - eapply perm_trans; [apply perm_skip, IH | apply insertSignal_Permutation].
Qed.

(** The sort is stable: a list already in order is left as it is. *)
Lemma sortSignals_sorted_id (l : list OpportunitySignal) :
  StronglySorted before l -> sortSignals l = l.
Proof.
  induction 1 as [| a l Hs IH Ha]; simpl.
  - reflexivity.
  - rewrite IH. destruct l as [| b l']; simpl; [reflexivity |].
    inversion Ha as [| ? ? Hab _]; subst.
    unfold compareSignals. unfold before in Hab.
    cmp_cases; [reflexivity | lra].
Qed.

Lemma insertSignal_Forall (P : OpportunitySignal -> Prop)
    (a : OpportunitySignal) (l : list OpportunitySignal) :
  P a -> Forall P l -> Forall P (insertSignal a l).
Proof.
  intros Ha Hl. apply Forall_forall. intros x Hx.
  apply insertSignal_In in Hx. destruct Hx as [-> | Hx].
  - exact Ha.
  - rewrite Forall_forall in Hl. apply Hl, Hx.
Qed.

Lemma insertSignal_sorted (a : OpportunitySignal) (l : list OpportunitySignal) :
  StronglySorted before l -> StronglySorted before (insertSignal a l).
Proof.
  induction 1 as [| b l Hs IH Hb]; simpl.
  - constructor; constructor.
  - unfold compareSignals. cmp_cases.
    + constructor.
      * constructor; assumption.
      * assert (Hab : before a b) by (unfold before; lra).
        constructor; [exact Hab |].
        eapply Forall_impl; [| exact Hb].
        intros c Hc. eapply before_trans; eassumption.
    + constructor; [exact IH |].
      apply insertSignal_Forall; [unfold before; lra | exact Hb].
Qed.

Lemma sortSignals_sorted (l : list OpportunitySignal) :
  StronglySorted before (sortSignals l).
Proof.
  induction l as [| a l IH]; simpl.
  - constructor.
  - apply insertSignal_sorted, IH.
Qed.

Variable toFixed : Q -> nat -> string.
Variable now : Z.
Variable sqrt : Q -> Q.

Lemma scoreMarketAdvanced_Some (args : Market) (r : AdvancedScore) :
  scoreMarketAdvanced toFixed now sqrt args = Some r ->
  exists latest rest,
    snapshots args = latest :: rest
    /\ 0 < orElse (yesPrice latest) 0.5 < 1
    /\ r = scoreLatest toFixed now sqrt args latest (orElse (yesPrice latest) 0.5).
Proof.
  unfold scoreMarketAdvanced.
  destruct (snapshots args) as [| latest rest]; [discriminate |].
  cmp_cases; simpl; try discriminate.
  intro H. injection H as <-.
  exists latest, rest. repeat split; assumption.
Qed.

(** C7: the list returned by [generateSignals] is in descending order of
    strength x confidence; in the result of [scoreMarketAdvanced] the signal
    list is such a list and [primarySignal] is its first element, or null
    when it is empty. *)
Theorem generateSignals_descending_and_primary :
  (forall edge edgeDirection delayRisk isByDate attentionScore volumeZScore
          isVolumeSpike momentum velocity24h timeRemainingDays liquidity,
      StronglySorted (fun a b => strength b * confidence b <= strength a * confidence a)
        (generateSignals toFixed edge edgeDirection delayRisk isByDate
           attentionScore volumeZScore isVolumeSpike momentum velocity24h
           timeRemainingDays liquidity))
  /\ (forall args r,
         scoreMarketAdvanced toFixed now sqrt args = Some r ->
         (exists liquidity,
             signals r
             = generateSignals toFixed (score_edge r) (score_edgeDirection r)
                 (score_delayRisk r)
                 (Deadline.looksLikeByDateMarket (title args) (rules args)
                    (description args))
                 (score_attentionScore r) (score_volumeZScore r)
                 (score_isVolumeSpike r) (score_momentum r) (priceVelocity24h r)
                 (score_timeRemainingDays r) liquidity)
         /\ primarySignal r = match signals r with
                              | [] => None
                              | first :: _ => Some first
                              end).
Proof.
  split.
  - intros. unfold generateSignals. apply sortSignals_sorted.
  - intros args r H.
    destruct (scoreMarketAdvanced_Some args r H) as (latest & rest & _ & _ & ->).
    split.
    + exists (orElse (liquidity latest) 0). reflexivity.
    + reflexivity.
Qed.

End Signals.

Section SignalRanges.
Import JS AdvancedScoring.

Variable toFixed : Q -> nat -> string.

Lemma pushIf_In (c : bool) (s x : OpportunitySignal) (l : list OpportunitySignal) :
  In x (pushIf c s l) -> In x l \/ x = s.
Proof.
  unfold pushIf. destruct c; [| tauto].
  rewrite in_app_iff. simpl. intuition congruence.
Qed.

(** Every emitted signal is one of the five records the rules build. *)
Lemma generateSignals_In
    (edge : Q) (edgeDirection : Side) (delayRisk : Q) (isByDate : bool)
    (attentionScore volumeZScore : Q) (isVolumeSpike : bool)
    (momentum : Momentum) (velocity24h : Q) (timeRemainingDays : option Q)
    (liquidity : Q) (s : OpportunitySignal) :
  In s (generateSignals toFixed edge edgeDirection delayRisk isByDate
          attentionScore volumeZScore isVolumeSpike momentum velocity24h
          timeRemainingDays liquidity) ->
  s = deadlineOverpriced toFixed edge delayRisk timeRemainingDays
  \/ s = momentumEntry toFixed momentum velocity24h volumeZScore
  \/ s = attentionArbitrage toFixed edge edgeDirection
  \/ s = volumePrecursor volumeZScore
  \/ s = meanReversion toFixed velocity24h.
Proof.
  unfold generateSignals, pushedSignals. rewrite sortSignals_In.
  intro H.
  repeat (apply pushIf_In in H; destruct H as [H | H]); try tauto.
  destruct H.
Qed.

Lemma unit_cap (x : Q) : 0 <= x -> 0 <= Qmin 1 x <= 1.
Proof.
  intro H. split; [apply Q.min_glb; lra | apply Q.le_min_l].
Qed.

(** The three rules that cap their strength with [Math.min(1, _)] stay in
    [0,1]; the attention-arbitrage and volume-precursor rules do not cap. *)
Lemma generateSignals_capped_strength
    (edge : Q) (edgeDirection : Side) (delayRisk : Q) (isByDate : bool)
    (attentionScore volumeZScore : Q) (isVolumeSpike : bool)
    (momentum : Momentum) (velocity24h : Q) (timeRemainingDays : option Q)
    (liquidity : Q) (s : OpportunitySignal) :
  In s (generateSignals toFixed edge edgeDirection delayRisk isByDate
          attentionScore volumeZScore isVolumeSpike momentum velocity24h
          timeRemainingDays liquidity) ->
  type s = DeadlineOverpriced \/ type s = MomentumEntry \/ type s = MeanReversion ->
  0 <= strength s <= 1.
Proof.
  intros H Ht. apply generateSignals_In in H.
  destruct H as [-> | [-> | [-> | [-> | ->]]]]; simpl in *;
    try (destruct Ht as [Ht | [Ht | Ht]]; discriminate);
    apply unit_cap;
    match goal with
    | |- 0 <= Qabs ?x * ?c => pose proof (Qabs_nonneg x); nra
    end.
Qed.

(** The confidence is a constant for three rules; for the deadline rule it
    is in [0.7, 0.9] when the delay risk is in [0,1]; for the momentum rule
    it is [0.6 + 0.1 z], within [0,1] only for [-6 <= z <= 4]. *)
Lemma generateSignals_confidence
    (edge : Q) (edgeDirection : Side) (delayRisk : Q) (isByDate : bool)
    (attentionScore volumeZScore : Q) (isVolumeSpike : bool)
    (momentum : Momentum) (velocity24h : Q) (timeRemainingDays : option Q)
    (liquidity : Q) (s : OpportunitySignal) :
  In s (generateSignals toFixed edge edgeDirection delayRisk isByDate
          attentionScore volumeZScore isVolumeSpike momentum velocity24h
          timeRemainingDays liquidity) ->
  0 <= delayRisk <= 1 ->
  match type s with
  | DeadlineOverpriced => 0.7 <= confidence s <= 0.9
  | MomentumEntry => confidence s == 0.6 + volumeZScore * 0.1
  | AttentionArbitrage => confidence s == 0.65
  | VolumePrecursor => confidence s == 0.5
  | MeanReversion => confidence s == 0.55
  end.
Proof.
  intros H Hd. apply generateSignals_In in H.
  destruct H as [-> | [-> | [-> | [-> | ->]]]]; simpl; try reflexivity.
  lra.
Qed.

End SignalRanges.

Section SignalExamples.
Import JS AdvancedScoring.

(** On [Examples.spikeMarket] the deadline signal is pushed first and the
    volume signal outweighs it: the sort brings the volume signal to the
    front, where [primarySignal] finds it. *)
Lemma generateSignals_descending_and_primary_witness :
  exists r,
    scoreMarketAdvanced Host.toFixed 0 Host.sqrt Examples.spikeMarket = Some r
    /\ map type (signals r) = [VolumePrecursor; DeadlineOverpriced]
    /\ map (fun s => Qred (weight s)) (signals r) = [1; 9 # 10]
    /\ option_map type (primarySignal r) = Some VolumePrecursor
    /\ primarySignal r = match signals r with
                         | [] => None
                         | first :: _ => Some first
                         end.
Proof.
  eexists. split; [reflexivity |].
  split; [vm_compute; reflexivity |].
  split; [vm_compute; reflexivity |].
  split; [vm_compute; reflexivity |].
  exact (proj2 (proj2 (generateSignals_descending_and_primary Host.toFixed 0 Host.sqrt)
                  Examples.spikeMarket _ eq_refl)).
Defined.

(** C9 fails on the code.  With an edge of -0.4 under low attention the
    attention-arbitrage signal has strength 1.2; with a volume z-score of 8
    the volume-precursor signal has strength 2 and the momentum-entry signal
    has confidence 1.4. *)
Theorem generateSignals_strength_above_one (toFixed : Q -> nat -> string) :
  (exists s,
      In s (generateSignals toFixed (-0.4) NO 1 true 0.1 0 false neutral 0
              (Some 5) 2000)
      /\ type s = AttentionArbitrage
      /\ strength s == 1.2
      /\ ~ (0 <= strength s <= 1))
  /\ (exists s,
         In s (generateSignals toFixed 0 YES 0 false 0.5 8 true neutral 0.01
                 None 60000)
         /\ type s = VolumePrecursor
         /\ strength s == 2
         /\ ~ (0 <= strength s <= 1))
  /\ (exists s,
         In s (generateSignals toFixed 0 YES 0 false 0.5 8 true bullish 0.1
                 None 60000)
         /\ type s = MomentumEntry
         /\ confidence s == 1.4
         /\ ~ (0 <= confidence s <= 1)).
Proof.
  split; [| split].
  - exists (attentionArbitrage toFixed (-0.4) NO).
    split; [right; left; reflexivity |].
    split; [reflexivity |].
    split; [vm_compute; reflexivity |].
    intros [_ H]. vm_compute in H. apply H. reflexivity.
  - exists (volumePrecursor 8).
    split; [left; reflexivity |].
    split; [reflexivity |].
    split; [vm_compute; reflexivity |].
    intros [_ H]. vm_compute in H. apply H. reflexivity.
  - exists (momentumEntry toFixed bullish 0.1 8).
    split; [left; reflexivity |].
    split; [reflexivity |].
    split; [vm_compute; reflexivity |].
    intros [_ H]. vm_compute in H. apply H. reflexivity.
Qed.

(** The same through [scoreMarketAdvanced]: the primary signal of
    [Examples.spikeMarket] has strength 2. *)
Lemma scoreMarketAdvanced_strength_above_one :
  exists r s,
    scoreMarketAdvanced Host.toFixed 0 Host.sqrt Examples.spikeMarket = Some r
    /\ primarySignal r = Some s
    /\ strength s == 2.
Proof.
  eexists. eexists. split; [reflexivity |].
  split; [vm_compute; reflexivity |].
  vm_compute. reflexivity.
Qed.

End SignalExamples.

(** ** The scorer boundary *)

Section Boundary.
Import JS AdvancedScoring.

Variable toFixed : Q -> nat -> string.
Variable now : Z.
Variable sqrt : Q -> Q.

Lemma scoreMarketAdvanced_cons (args : Market) (latest : Snapshot) (rest : list Snapshot) :
  snapshots args = latest :: rest ->
  scoreMarketAdvanced toFixed now sqrt args
  = if leb (orElse (yesPrice latest) 0.5) 0 || geb (orElse (yesPrice latest) 0.5) 1
    then None
    else Some (scoreLatest toFixed now sqrt args latest (orElse (yesPrice latest) 0.5)).
Proof.
  intro H. unfold scoreMarketAdvanced. rewrite H. reflexivity.
Qed.

Lemma scoreMarketAdvanced_None (args : Market) :
  scoreMarketAdvanced toFixed now sqrt args = None
  <-> snapshots args = []
      \/ exists latest rest,
          snapshots args = latest :: rest
          /\ (orElse (yesPrice latest) 0.5 <= 0 \/ 1 <= orElse (yesPrice latest) 0.5).
Proof.
  destruct (snapshots args) as [| latest rest] eqn:Hs.
  - unfold scoreMarketAdvanced. rewrite Hs. split; [left |]; reflexivity.
  - rewrite (scoreMarketAdvanced_cons args latest rest Hs).
    split.
    + intro H. right. exists latest, rest. split; [reflexivity |].
      revert H. cmp_cases; simpl; intro H; try discriminate; tauto.
    + intros [H | (l & r & H & Hp)]; [discriminate |].
      injection H as <- <-.
      cmp_cases; simpl; try reflexivity. lra.
Qed.

(** C1: [scoreMarketAdvanced] returns null exactly when the snapshot list is
    empty or the current yes-price, taken from the newest snapshot (0.5 when
    it quotes none), is at most 0 or at least 1; in every other case it
    returns a score. *)
Theorem scoreMarketAdvanced_null_iff (args : Market) :
  (scoreMarketAdvanced toFixed now sqrt args = None
   <-> snapshots args = []
       \/ exists latest rest,
           snapshots args = latest :: rest
           /\ (orElse (yesPrice latest) 0.5 <= 0
               \/ 1 <= orElse (yesPrice latest) 0.5))
  /\ ((exists r, scoreMarketAdvanced toFixed now sqrt args = Some r)
      <-> ~ (snapshots args = []
             \/ exists latest rest,
                 snapshots args = latest :: rest
                 /\ (orElse (yesPrice latest) 0.5 <= 0
                     \/ 1 <= orElse (yesPrice latest) 0.5))).
Proof.
  pose proof (scoreMarketAdvanced_None args) as H.
  split; [exact H |].
  rewrite <- H.
  destruct (scoreMarketAdvanced toFixed now sqrt args) as [r |].
  - split; [discriminate | intros _; exists r; reflexivity].
  - split; [intros [r Hr]; discriminate | congruence].
Qed.

(** C10: when the newest snapshot quotes no yes-price, 0.5 stands for it and
    the market is scored; an absent no-price is replaced by 1 minus the
    current yes-price; and a null result on a non-empty list comes only from
    a quoted yes-price that is at most 0 or at least 1. *)
Theorem scoreMarketAdvanced_absent_price_defaults (args : Market) :
  (forall latest rest,
      snapshots args = latest :: rest ->
      yesPrice latest = None ->
      exists r,
        scoreMarketAdvanced toFixed now sqrt args = Some r
        /\ currentYesPrice r = 0.5
        /\ (noPrice latest = None -> currentNoPrice r == 0.5))
  /\ (forall r,
         scoreMarketAdvanced toFixed now sqrt args = Some r ->
         exists latest rest,
           snapshots args = latest :: rest
           /\ currentYesPrice r = orElse (yesPrice latest) 0.5
           /\ currentNoPrice r = orElse (noPrice latest) (1 - currentYesPrice r))
  /\ (scoreMarketAdvanced toFixed now sqrt args = None ->
      snapshots args = []
      \/ exists latest rest p,
          snapshots args = latest :: rest
          /\ yesPrice latest = Some p
          /\ (p <= 0 \/ 1 <= p)).
Proof.
  split; [| split].
  - intros latest rest Hs Hy.
    rewrite (scoreMarketAdvanced_cons args latest rest Hs).
    rewrite Hy. simpl.
    eexists. split; [reflexivity |]. simpl.
    split; [reflexivity |].
    intros ->. simpl. reflexivity.
  - intros r H.
    destruct (scoreMarketAdvanced_Some toFixed now sqrt args r H)
      as (latest & rest & Hs & _ & ->).
    exists latest, rest. repeat split; [exact Hs].
  - intro H. apply scoreMarketAdvanced_None in H.
    destruct H as [H | (latest & rest & Hs & Hp)]; [left; exact H | right].
    destruct (yesPrice latest) as [p |] eqn:Hy; simpl in Hp.
    + exists latest, rest, p. repeat split; tauto.
    + exfalso. destruct Hp as [Hp | Hp]; vm_compute in Hp; apply Hp; reflexivity.
Qed.

End Boundary.

Section BoundaryExamples.
Import JS AdvancedScoring.

Lemma scoreMarketAdvanced_null_examples :
  scoreMarketAdvanced Host.toFixed 0 Host.sqrt
    {| id := "m0"; title := "Empty"; description := None; rules := None;
       category := None; endDate := None; snapshots := [] |} = None
  /\ scoreMarketAdvanced Host.toFixed 0 Host.sqrt
       {| id := "m3"; title := "Resolved"; description := None; rules := None;
          category := None; endDate := None;
          snapshots := [Examples.snapshotOf (Some 1) None None None] |} = None
  /\ scoreMarketAdvanced Host.toFixed 0 Host.sqrt
       {| id := "m4"; title := "Dead"; description := None; rules := None;
          category := None; endDate := None;
          snapshots := [Examples.snapshotOf (Some 0) None None None] |} = None.
Proof.
  repeat split.
Qed.

Lemma scoreMarketAdvanced_absent_price_defaults_witness :
  let latest := Examples.snapshotOf None None None None in
  snapshots Examples.unquotedMarket = [latest]
  /\ yesPrice latest = None
  /\ noPrice latest = None
  /\ exists r,
      scoreMarketAdvanced Host.toFixed 0 Host.sqrt Examples.unquotedMarket = Some r
      /\ currentYesPrice r = 0.5
      /\ currentNoPrice r == 0.5.
Proof.
  intro latest.
  assert (Hs : snapshots Examples.unquotedMarket = [latest]) by reflexivity.
  assert (Hy : yesPrice latest = None) by reflexivity.
  assert (Hn : noPrice latest = None) by reflexivity.
  split; [exact Hs |]. split; [exact Hy |]. split; [exact Hn |].
  destruct (proj1 (scoreMarketAdvanced_absent_price_defaults
                     Host.toFixed 0 Host.sqrt Examples.unquotedMarket)
              latest [] Hs Hy) as (r & Hr & Hyes & Hno).
  exists r. split; [exact Hr |]. split; [exact Hyes | exact (Hno Hn)].
Defined.

End BoundaryExamples.

(** ** The deadline extractor *)

Section Extractor.
Import JS Regex Deadline.

Variable endOfThisYear : Z.
Variable parseDate : string -> option Z.

(** The date object [new Date(s)] builds from what the host parser says. *)
Definition dateOfParse (s : string) : Date :=
  match parseDate s with
  | Some t => MkDate t
  | None => InvalidDate
  end.

Lemma extractDeadline_structured (title : string) (rules : option string) (d : Date) :
  extractDeadline endOfThisYear parseDate title rules (Some d) = Some d.
Proof. reflexivity. Qed.

(** The [try] block never raises: the [catch] is not reached. *)
Lemma parseMatch_Normal (m : matchResult) :
  exists d, parseMatch endOfThisYear parseDate m = Normal d.
Proof.
  unfold parseMatch, newDate.
  destruct (includes "this year" (m0 m)); eexists; reflexivity.
Qed.

(** The loop stops at the first pattern that matches, whatever its text
    parses to. *)
Lemma tryPatterns_first_match (before : list pattern) (p : pattern)
    (after : list pattern) (text : string) (m : matchResult) :
  Forall (fun q => exec q text = None) before ->
  exec p text = Some m ->
  tryPatterns endOfThisYear parseDate (before ++ p :: after) text
  = Some (if includes "this year" (m0 m) then MkDate endOfThisYear
          else dateOfParse (groupOrWhole m)).
Proof.
  intros Hb Hp. induction Hb as [| q before Hq _ IH]; simpl.
  - rewrite Hp. unfold parseMatch, newDate, dateOfParse.
    destruct (includes "this year" (m0 m)); reflexivity.
  - rewrite Hq. exact IH.
Qed.

(** The result is null only when no pattern matches. *)
Lemma tryPatterns_None (patterns : list pattern) (text : string) :
  tryPatterns endOfThisYear parseDate patterns text = None
  <-> Forall (fun q => exec q text = None) patterns.
Proof.
  induction patterns as [| p patterns IH]; simpl.
  - split; [constructor | reflexivity].
  - destruct (exec p text) as [m |] eqn:Hp.
    + destruct (parseMatch_Normal m) as [d Hd]. rewrite Hd.
      split; [discriminate | intro H; inversion H; congruence].
    + rewrite IH. split; [intro H; constructor; assumption |].
      intro H. inversion H. assumption.
Qed.

(** C8 holds for a structured end date and for a text no pattern matches,
    and fails when a pattern matches text that is not a date: for the title
    "Settle 13/45/2026" the result is the date object built from the matched
    text, the invalid date when the host parser rejects it, and never null;
    for "Due by Foo 99, 2026 or 3/31/2026" the first pattern's text decides
    alone and the slash date after it is not tried. *)
Theorem extractDeadline_unparsed_match_not_null :
  (forall title rules d,
      extractDeadline endOfThisYear parseDate title rules (Some d) = Some d)
  /\ extractDeadline endOfThisYear parseDate "Who wins the election" None None = None
  /\ extractDeadline endOfThisYear parseDate "Settle 13/45/2026" None None
     = Some (dateOfParse "13/45/2026")
  /\ extractDeadline endOfThisYear parseDate "Settle 13/45/2026" None None <> None
  /\ extractDeadline endOfThisYear parseDate "Due by Foo 99, 2026 or 3/31/2026"
       None None
     = Some (dateOfParse "Foo 99, 2026")
  /\ extractDeadline endOfThisYear parseDate "Settled This Year" None None
     = Some (dateOfParse "This Year").
Proof.
  split; [intros; reflexivity |].
  split; [vm_compute; reflexivity |].
  split; [vm_compute; reflexivity |].
  split; [vm_compute; discriminate |].
  split; vm_compute; reflexivity.
Qed.

End Extractor.

Section ExtractorExamples.
Import JS Regex Deadline.

(** With a host parser that rejects "13/45/2026" the result is the invalid
    date, where C8 asks for null; with one that rejects "Foo 99, 2026" and
    accepts "3/31/2026" the result is still the invalid date. *)
Lemma extractDeadline_returns_invalid_date :
  let strict := fun s : string =>
    if String.eqb s "3/31/2026" then Some 1774915200000%Z else None in
  extractDeadline 0 strict "Settle 13/45/2026" None None = Some InvalidDate
  /\ extractDeadline 0 strict "Due by Foo 99, 2026 or 3/31/2026" None None
     = Some InvalidDate
  /\ extractDeadline 0 strict "Settle 3/31/2026" None None
     = Some (MkDate 1774915200000)
  /\ extractDeadline 0 strict "Settled This Year" None None = Some InvalidDate
  /\ extractDeadline 77 strict "Settled this year" None None = Some (MkDate 77).
Proof.
  repeat split.
Qed.

End ExtractorExamples.

(** ** Sorting with a comparator *)

Section ArraySort.
Import JS JSArray.

Context {A : Type}.
Variable cmp : A -> A -> Q.

Lemma insertBy_Permutation (a : A) (l : list A) :
  Permutation (a :: l) (insertBy cmp a l).
Proof.
  induction l as [| b l IH]; simpl.
  - apply Permutation_refl.
  - destruct (leb (cmp a b) 0).
    + apply Permutation_refl.
    + eapply perm_trans; [apply perm_swap | apply perm_skip, IH].
Qed.

Lemma sortWith_Permutation (l : list A) : Permutation l (sortWith cmp l).
Proof.
  induction l as [| a l IH]; simpl.
  - apply perm_nil.
  - eapply perm_trans; [apply perm_skip, IH | apply insertBy_Permutation].
Qed.

Lemma sortWith_In (x : A) (l : list A) : In x (sortWith cmp l) <-> In x l.
Proof.
  split; apply Permutation_in;
    [apply Permutation_sym |]; apply sortWith_Permutation.
Qed.

Lemma sortWith_length (l : list A) : List.length (sortWith cmp l) = List.length l.
Proof.
  symmetry. apply Permutation_length, sortWith_Permutation.
Qed.

End ArraySort.

Section ArraySortByKey.
Import JS JSArray.

Context {A : Type}.
Variable key : A -> Q.

(** The comparator [(a, b) => key(b) - key(a)]: descending by key. *)
Definition descending (a b : A) : Q := key b - key a.

Definition keyOrder (a b : A) : Prop := key b <= key a.

Lemma insertBy_sorted (a : A) (l : list A) :
  StronglySorted keyOrder l -> StronglySorted keyOrder (insertBy descending a l).
Proof.
  induction 1 as [| b l Hs IH Hb]; simpl.
  - constructor; constructor.
  - unfold descending at 1. cmp_cases.
    + constructor; [constructor; assumption |].
      constructor; [unfold keyOrder; lra |].
      eapply Forall_impl; [| exact Hb].
      unfold keyOrder. intros c Hc. lra.
    + constructor; [exact IH |].
      apply Forall_forall. intros x Hx.
      apply (Permutation_in x (Permutation_sym (insertBy_Permutation descending a l)))
        in Hx.
      destruct Hx as [<- | Hx]; [unfold keyOrder; lra |].
      rewrite Forall_forall in Hb. apply Hb, Hx.
Qed.

Lemma sortWith_sorted (l : list A) : StronglySorted keyOrder (sortWith descending l).
Proof.
  induction l as [| a l IH]; simpl.
  - constructor.
  - apply insertBy_sorted, IH.
Qed.

Lemma sortWith_sorted_id (l : list A) :
  StronglySorted keyOrder l -> sortWith descending l = l.
Proof.
  induction 1 as [| a l Hs IH Ha]; simpl.
  - reflexivity.
  - rewrite IH. destruct l as [| b l']; simpl; [reflexivity |].
    inversion Ha as [| ? ? Hab _]; subst.
    unfold descending, keyOrder in *. cmp_cases; [reflexivity | lra].
Qed.

(** Filtering a sorted list and inserting commute. *)
Lemma filter_insertBy (p : A -> bool) (a : A) (l : list A) :
  StronglySorted keyOrder l ->
  filter p (insertBy descending a l)
  = if p a then insertBy descending a (filter p l) else filter p l.
Proof.
  induction 1 as [| b l Hs IH Hb]; simpl.
  - destruct (p a); reflexivity.
  - unfold descending at 1. cmp_cases.
    + simpl. destruct (p a) eqn:Hpa; [| reflexivity].
      destruct (p b) eqn:Hpb; simpl.
      * unfold descending at 1.
        assert (H : leb (key b - key a) 0 = true) by (apply leb_le; lra).
        rewrite H. reflexivity.
      * (* every later element has a key at most that of [a] *)
        assert (Hl : Forall (fun c => key c <= key a) l).
        { eapply Forall_impl; [| exact Hb].
          unfold keyOrder. intros c Hc. lra. }
        clear - Hl Hpa. induction l as [| c l IHl]; simpl.
        -- reflexivity.
        -- inversion Hl as [| ? ? Hc Hl']; subst.
           destruct (p c); simpl.
           ++ unfold descending at 1.
              assert (H : leb (key c - key a) 0 = true) by (apply leb_le; lra).
              rewrite H. reflexivity.
           ++ apply IHl, Hl'.
    + simpl. rewrite IH.
      destruct (p a) eqn:Hpa; destruct (p b) eqn:Hpb; simpl; try reflexivity.
      unfold descending at 2.
      assert (H : leb (key b - key a) 0 = false) by (apply leb_gt; lra).
      rewrite H. reflexivity.
Qed.

Lemma filter_sortWith (p : A -> bool) (l : list A) :
  filter p (sortWith descending l) = sortWith descending (filter p l).
Proof.
  induction l as [| a l IH]; simpl.
  - reflexivity.
  - rewrite filter_insertBy by apply sortWith_sorted.
    rewrite IH. destruct (p a); reflexivity.
Qed.

End ArraySortByKey.

(** ** More on the probability model *)

Section DelayModelMore.
Import JS Model.

Lemma clamp01_cases (x : Q) :
  (x <= 0 /\ clamp01 x == 0)
  \/ (0 <= x <= 1 /\ clamp01 x == x)
  \/ (1 <= x /\ clamp01 x == 1).
Proof.
  destruct (Qlt_le_dec x 0) as [H0 | H0].
  - left. split; [lra | apply clamp01_low; lra].
  - destruct (Qlt_le_dec 1 x) as [H1 | H1].
    + right. right. split; [lra | apply clamp01_high; lra].
    + right. left. split; [lra |]. unfold clamp01.
      rewrite (Q.min_r 1 x H1). apply Q.max_r. exact H0.
Qed.

Lemma clamp01_idem (x : Q) : clamp01 (clamp01 x) == clamp01 x.
Proof.
  pose proof (clamp01_range x) as H.
  destruct (clamp01_cases (clamp01 x)) as [[H0 E] | [[H0 E] | [H0 E]]];
    rewrite E; lra.
Qed.

(** The model lowers the clamped market probability by the accumulated
    penalty, never below 0. *)
Lemma clamp01_lowered (m pen : Q) :
  0 <= m <= 1 -> 0 <= pen ->
  m - pen <= clamp01 (m - pen) <= m
  /\ (0 < m -> 0 < pen -> clamp01 (m - pen) < m).
Proof.
  intros Hm Hp.
  destruct (clamp01_cases (m - pen)) as [[H0 E] | [[H0 E] | [H0 E]]];
    rewrite E; repeat split; intros; lra.
Qed.

Lemma deadlineDelayModel_lowers
    (now : Z) (marketProb : Q) (endDate : option Deadline.Date)
    (liquidity : option Q) (category : option string) :
  let out := deadlineDelayModel now marketProb endDate liquidity category in
  (clamp01 marketProb - 0.42 <= modelProb out <= clamp01 marketProb)
  /\ match endDate with
     | None => modelProb out = clamp01 marketProb /\ delayRisk out = 0
     | Some _ =>
         0.06 <= delayRisk out
         /\ (0 < marketProb -> modelProb out < clamp01 marketProb)
     end.
Proof.
  unfold deadlineDelayModel.
  pose proof (clamp01_range marketProb) as Hm.
  destruct endDate as [d |].
  - assert (Hd : exists days, Deadline.timeRemainingDays now (Some d) = Some days).
    { destruct d; simpl; eexists; reflexivity. }
    destruct Hd as [days ->]. cbv zeta. simpl modelProb. simpl delayRisk.
    pose proof (accumulate_bounds days liquidity category) as Hp.
    set (pen := delayPenalty (accumulate days liquidity category)) in *.
    destruct (clamp01_lowered (clamp01 marketProb) pen Hm) as [Hl Hs]; [lra |].
    split; [lra |]. split.
    + apply Qle_trans with (clamp01 ((2 # 100) / 0.30)).
      * vm_compute. discriminate.
      * apply clamp01_mono. apply Qmult_le_compat_r; [lra |].
        vm_compute. discriminate.
    + intro Hpos. apply Hs; [| lra].
      destruct (clamp01_cases marketProb) as [[H0 E] | [[H0 E] | [H0 E]]]; lra.
  - simpl. split; [lra | split; reflexivity].
Qed.

(** X1: [deadlineDelayModel] never raises a probability: the model
    probability is at most the clamped market probability and at least that
    minus 0.42.  (The largest penalties, 0.25 + 0.08 + 0.08, add up to 0.41;
    the bounds stated here are not tight, so that they do not hang on how
    the sum and the quotient by 0.30 are rounded.)  Without an end date the
    model probability is the clamped market probability itself, with delay
    risk 0; with an end date the delay risk is at least 0.06, and the model
    probability is strictly lower whenever the market probability is
    positive. *)
Theorem deadlineDelayModel_never_raises
    (now : Z) (marketProb : Q) (endDate : option Deadline.Date)
    (liquidity : option Q) (category : option string) :
  let out := deadlineDelayModel now marketProb endDate liquidity category in
  (clamp01 marketProb - 0.42 <= modelProb out <= clamp01 marketProb)
  /\ match endDate with
     | None => modelProb out = clamp01 marketProb /\ delayRisk out = 0
     | Some _ =>
         0.06 <= delayRisk out
         /\ (0 < marketProb -> modelProb out < clamp01 marketProb)
     end.
Proof.
  apply deadlineDelayModel_lowers.
Qed.

(** X2: the confidence of [deadlineDelayModel] is 0.3 without an end date
    and lies in [0.45, 0.9] with one; the rationale has one entry without an
    end date and two or three with one. *)
Theorem deadlineDelayModel_confidence
    (now : Z) (marketProb : Q) (endDate : option Deadline.Date)
    (liquidity : option Q) (category : option string) :
  let out := deadlineDelayModel now marketProb endDate liquidity category in
  match endDate with
  | None => confidence out = 0.3 /\ List.length (rationale out) = 1%nat
  | Some _ =>
      0.45 <= confidence out <= 0.9
      /\ (2 <= List.length (rationale out) <= 3)%nat
  end.
Proof.
  unfold deadlineDelayModel.
  destruct endDate as [d |]; [| split; reflexivity].
  assert (Hd : exists days, Deadline.timeRemainingDays now (Some d) = Some days).
  { destruct d; simpl; eexists; reflexivity. }
  destruct Hd as [days ->]. cbv zeta. simpl confidence. simpl rationale.
  unfold accumulate, categoryStep, liquidityStep, timeStep.
  repeat match goal with
         | |- context [if ?b then _ else _] => destruct b
         end; simpl; (split; [lra | lia]).
Qed.

End DelayModelMore.

(** ** Time remaining and urgency *)

Section TimeAndUrgency.
Import JS Model Deadline.

(** X3: [timeRemainingDays] is null exactly when there is no end date; for
    an end date that is past, or now, or invalid it is 0; for a later one it
    is the distance in days; it is never negative. *)
Theorem timeRemainingDays_cases (now : Z) :
  timeRemainingDays now None = None
  /\ timeRemainingDays now (Some InvalidDate) = Some 0
  /\ (forall t, (t <= now)%Z -> timeRemainingDays now (Some (MkDate t)) = Some 0)
  /\ (forall t, (now < t)%Z ->
        timeRemainingDays now (Some (MkDate t))
        = Some (inject_Z (t - now) / msPerDay))
  /\ (forall endDate d, timeRemainingDays now endDate = Some d -> 0 <= d).
Proof.
  split; [reflexivity |]. split; [reflexivity |].
  split; [| split].
  - intros t Ht. simpl.
    assert (H : gtb (inject_Z (t - now)) 0 = false).
    { apply gtb_le. replace 0 with (inject_Z 0) by reflexivity.
      rewrite <- Zle_Qle. lia. }
    rewrite H. reflexivity.
  - intros t Ht. simpl.
    assert (H : gtb (inject_Z (t - now)) 0 = true).
    { apply gtb_lt. replace 0 with (inject_Z 0) by reflexivity.
      rewrite <- Zlt_Qlt. lia. }
    rewrite H. reflexivity.
  - intros endDate d. apply timeRemainingDays_nonneg.
Qed.

(** X4: the urgency label follows the time buckets of [deadlineDelayModel]:
    critical goes with the penalty 0.25, urgent with 0.18, moderate with
    0.10, and distant with 0.04 or 0.02; unknown is the label of a null
    count of days only. *)
Theorem deadlineUrgency_matches_time_buckets (days : Q) (st : locals) :
  deadlineUrgency None = unknown
  /\ match deadlineUrgency (Some days) with
     | critical =>
         days < 7 /\ delayPenalty (timeStep days st) == delayPenalty st + 0.25
     | urgent =>
         7 <= days < 30
         /\ delayPenalty (timeStep days st) == delayPenalty st + 0.18
     | moderate =>
         30 <= days < 90
         /\ delayPenalty (timeStep days st) == delayPenalty st + 0.10
     | distant =>
         90 <= days
         /\ (delayPenalty (timeStep days st) == delayPenalty st + 0.04
             \/ delayPenalty (timeStep days st) == delayPenalty st + 0.02)
     | unknown => False
     end.
Proof.
  split; [reflexivity |].
  unfold deadlineUrgency, timeStep.
  cmp_cases; simpl; try lra; repeat split; lra.
Qed.

End TimeAndUrgency.

(** ** The attention score *)

Section Attention.
Import JS Model.

Lemma capped_share (x w : Q) : 0 <= w -> Qmin x 1 * w <= w.
Proof.
  intro Hw. pose proof (Q.le_min_r x 1) as H. nra.
Qed.

Lemma capped_share_nonneg (x w : Q) : 0 <= x -> 0 <= w -> 0 <= Qmin x 1 * w.
Proof.
  intros Hx Hw.
  assert (H : 0 <= Qmin x 1) by (apply Q.min_glb; lra).
  nra.
Qed.

Lemma attentionScore_le_1 (volume24h priceChange24h liquidity : option Q) :
  attentionScore volume24h priceChange24h liquidity <= 1.
Proof.
  unfold attentionScore.
  pose proof (capped_share (orElse volume24h 0 / 100000) 0.4).
  pose proof (capped_share (Qabs (orElse priceChange24h 0) / 0.2) 0.4).
  pose proof (capped_share (orElse liquidity 0 / 50000) 0.2). lra.
Qed.

(** X5: [attentionScore] is at most 1 for every input; it is at least 0
    when volume and liquidity are not negative; it is 0 when all three
    inputs are absent; and it is 1 when volume reaches 100000, the absolute
    price change 0.2 and liquidity 50000. *)
Theorem attentionScore_range (volume24h priceChange24h liquidity : option Q) :
  attentionScore volume24h priceChange24h liquidity <= 1
  /\ (0 <= orElse volume24h 0 -> 0 <= orElse liquidity 0 ->
      0 <= attentionScore volume24h priceChange24h liquidity)
  /\ attentionScore None None None == 0
  /\ (100000 <= orElse volume24h 0 ->
      0.2 <= Qabs (orElse priceChange24h 0) ->
      50000 <= orElse liquidity 0 ->
      attentionScore volume24h priceChange24h liquidity == 1).
Proof.
  unfold attentionScore.
  set (v := orElse volume24h 0). set (l := orElse liquidity 0).
  set (c := Qabs (orElse priceChange24h 0)).
  assert (Hc : 0 <= c) by apply Qabs_nonneg.
  split; [| split; [| split]].
  - pose proof (capped_share (v / 100000) 0.4).
    pose proof (capped_share (c / 0.2) 0.4).
    pose proof (capped_share (l / 50000) 0.2). lra.
  - intros Hv Hl.
    pose proof (capped_share_nonneg (v / 100000) 0.4).
    pose proof (capped_share_nonneg (c / 0.2) 0.4).
    pose proof (capped_share_nonneg (l / 50000) 0.2).
    assert (0 <= v / 100000) by (apply Qle_shift_div_l; lra).
    assert (0 <= c / 0.2) by (apply Qle_shift_div_l; lra).
    assert (0 <= l / 50000) by (apply Qle_shift_div_l; lra).
    lra.
  - vm_compute. reflexivity.
  - intros Hv Hc2 Hl.
    assert (E1 : Qmin (v / 100000) 1 == 1).
    { apply Q.min_r. apply Qle_shift_div_l; lra. }
    assert (E2 : Qmin (c / 0.2) 1 == 1).
    { apply Q.min_r. apply Qle_shift_div_l; lra. }
    assert (E3 : Qmin (l / 50000) 1 == 1).
    { apply Q.min_r. apply Qle_shift_div_l; lra. }
    rewrite E1, E2, E3. reflexivity.
Qed.

End Attention.

(** ** Momentum, tiers and sizes *)

Ltac cmp_step :=
  match goal with
  | |- context [JS.ltb ?x ?y] =>
      let E := fresh "E" in
      destruct (JS.ltb x y) eqn:E; [apply ltb_lt in E | apply ltb_ge in E]
  | |- context [JS.leb ?x ?y] =>
      let E := fresh "E" in
      destruct (JS.leb x y) eqn:E; [apply leb_le in E | apply leb_gt in E]
  | |- context [JS.gtb ?x ?y] =>
      let E := fresh "E" in
      destruct (JS.gtb x y) eqn:E; [apply gtb_lt in E | apply gtb_le in E]
  | |- context [JS.geb ?x ?y] =>
      let E := fresh "E" in
      destruct (JS.geb x y) eqn:E; [apply geb_le in E | apply geb_gt in E]
  end.

(** Case analysis on the comparisons of the goal, one at a time, dropping
    the cases whose comparisons contradict each other. *)
Ltac cmp_prune := repeat (cmp_step; simpl; try (exfalso; lra)).

Section MomentumTierSize.
Import JS AdvancedScoring.

Definition mirror (m : Momentum) : Momentum :=
  match m with
  | bullish => bearish
  | bearish => bullish
  | neutral => neutral
  end.

(** X6: [detectMomentum] agrees with the sign of the 24h move: bullish needs
    a 24h velocity above 0.03, bearish one below -0.03, and neutral one
    within [-0.05, 0.05]; a 24h velocity beyond 0.05 either way is never
    neutral; and negating both velocities swaps bullish and bearish. *)
Theorem detectMomentum_sign (velocity1h velocity24h volumeZScore : Q) :
  match detectMomentum velocity1h velocity24h volumeZScore with
  | bullish => 0.03 < velocity24h
  | bearish => velocity24h < -0.03
  | neutral => -0.05 <= velocity24h <= 0.05
  end
  /\ detectMomentum (- velocity1h) (- velocity24h) volumeZScore
     = mirror (detectMomentum velocity1h velocity24h volumeZScore).
Proof.
  split.
  - unfold detectMomentum. cmp_prune; lra.
  - unfold detectMomentum. cmp_prune; reflexivity.
Qed.

Definition tierRank (t : Tier.t) : nat :=
  match t with
  | Tier.D => 0
  | Tier.C => 1
  | Tier.B => 2
  | Tier.A => 3
  | Tier.S => 4
  end.

(** X7: [scoreTier] is monotone, a higher score never gets a lower tier,
    and its thresholds are 80, 65, 50 and 35. *)
Theorem scoreTier_monotone (s1 s2 : Q) :
  (s1 <= s2 -> (tierRank (scoreTier s1) <= tierRank (scoreTier s2))%nat)
  /\ match scoreTier s1 with
     | Tier.S => 80 <= s1
     | Tier.A => 65 <= s1 < 80
     | Tier.B => 50 <= s1 < 65
     | Tier.C => 35 <= s1 < 50
     | Tier.D => s1 < 35
     end.
Proof.
  split.
  - intro H. unfold scoreTier. cmp_prune; lia.
  - unfold scoreTier. cmp_prune; lra.
Qed.

Lemma scoreTier_monotone_witness :
  64.9 <= 65 /\ (tierRank (scoreTier 64.9) <= tierRank (scoreTier 65))%nat
  /\ scoreTier 64.9 = Tier.B /\ scoreTier 65 = Tier.A.
Proof.
  assert (H : 64.9 <= 65) by (vm_compute; discriminate).
  split; [exact H |].
  split; [exact (proj1 (scoreTier_monotone 64.9 65) H) |].
  split; reflexivity.
Defined.

(** X8: [suggestSize] never suggests a position for tier D or a Kelly
    fraction under 0.02, and only then skips; with liquidity under 5000 the
    size is at most small; large needs a Kelly fraction of 0.15, tier S or
    A and liquidity of 5000; medium needs a Kelly fraction of 0.08 and
    liquidity of 5000. *)
Theorem suggestSize_safety (kelly : Q) (tier : Tier.t) (liquidity : Q) :
  (suggestSize kelly tier liquidity = skip <-> kelly < 0.02 \/ tier = Tier.D)
  /\ (liquidity < 5000 ->
      suggestSize kelly tier liquidity = skip
      \/ suggestSize kelly tier liquidity = small)
  /\ (suggestSize kelly tier liquidity = large ->
      0.15 <= kelly /\ (tier = Tier.S \/ tier = Tier.A) /\ 5000 <= liquidity)
  /\ (suggestSize kelly tier liquidity = medium ->
      0.08 <= kelly /\ tier <> Tier.D /\ 5000 <= liquidity).
Proof.
  unfold suggestSize.
  split; [| split; [| split]].
  - destruct tier; simpl; cmp_prune;
      (split; [intro H; try discriminate; tauto
              | intros [H | H]; try discriminate; try reflexivity; lra]).
  - intro Hl. destruct tier; simpl; cmp_prune; tauto.
  - destruct tier; simpl; cmp_prune; intro H; try discriminate;
      repeat split; try lra; tauto.
  - destruct tier; simpl; cmp_prune; intro H; try discriminate;
      repeat split; try lra; discriminate.
Qed.

End MomentumTierSize.

(** ** The composite score *)

Section Composite.
Import JS AdvancedScoring.


End Composite.

(** ** More on the signal generator *)

Section SignalStructure.
Import JS AdvancedScoring.

Variable toFixed : Q -> nat -> string.

Lemma pushIf_length (c : bool) (s : OpportunitySignal) (l : list OpportunitySignal) :
  List.length (pushIf c s l) = (List.length l + if c then 1 else 0)%nat.
Proof.
  unfold pushIf. destruct c; [rewrite length_app; simpl |]; lia.
Qed.

Lemma pushIf_types (c : bool) (s : OpportunitySignal) (l : list OpportunitySignal) :
  map type (pushIf c s l) = map type l ++ (if c then [type s] else []).
Proof.
  unfold pushIf. destruct c; [rewrite map_app | rewrite app_nil_r]; reflexivity.
Qed.

(** The volume-precursor rule needs a 24h move under 0.03: it excludes the
    momentum-entry rule (a move over 0.08) and the mean-reversion rule (a
    move over 0.15). *)
Lemma precursor_excludes (isVolumeSpike : bool) (momentum : Momentum)
    (velocity24h volumeZScore : Q) :
  isVolumeSpike && ltb (Qabs velocity24h) 0.03 = true ->
  negb (isNeutral momentum) && isVolumeSpike && gtb (Qabs velocity24h) 0.08 = false
  /\ gtb (Qabs velocity24h) 0.15 && gtb volumeZScore 2.5 = false.
Proof.
  rewrite andb_true_iff, ltb_lt. intros [_ H].
  assert (H1 : gtb (Qabs velocity24h) 0.08 = false) by (apply gtb_le; lra).
  assert (H2 : gtb (Qabs velocity24h) 0.15 = false) by (apply gtb_le; lra).
  rewrite H1, H2, andb_false_r. split; reflexivity.
Qed.

(** X10: [generateSignals] emits at most 4 signals, not 5, and no two of
    the same type: the volume-precursor rule cannot fire together with the
    momentum-entry rule or the mean-reversion rule. *)
Theorem generateSignals_at_most_four
    (edge : Q) (edgeDirection : Side) (delayRisk : Q) (isByDate : bool)
    (attentionScore volumeZScore : Q) (isVolumeSpike : bool)
    (momentum : Momentum) (velocity24h : Q) (timeRemainingDays : option Q)
    (liquidity : Q) :
  let signals :=
    generateSignals toFixed edge edgeDirection delayRisk isByDate attentionScore
      volumeZScore isVolumeSpike momentum velocity24h timeRemainingDays
      liquidity in
  (List.length signals <= 4)%nat
  /\ NoDup (map type signals)
  /\ ~ (In VolumePrecursor (map type signals)
        /\ (In MomentumEntry (map type signals)
            \/ In MeanReversion (map type signals))).
Proof.
  intro signals.
  assert (Hperm : Permutation
                    (map type
                       (pushedSignals toFixed edge edgeDirection delayRisk isByDate
                          attentionScore volumeZScore isVolumeSpike momentum
                          velocity24h timeRemainingDays liquidity))
                    (map type signals)).
  { apply Permutation_map. unfold signals, generateSignals.
    apply sortSignals_Permutation. }
  assert (Hlen : List.length signals
                 = List.length
                     (pushedSignals toFixed edge edgeDirection delayRisk isByDate
                        attentionScore volumeZScore isVolumeSpike momentum
                        velocity24h timeRemainingDays liquidity)).
  { unfold signals, generateSignals. apply sortSignals_length. }
  rewrite Hlen.
  assert (Hin : forall t, In t (map type signals)
                          <-> In t (map type
                                      (pushedSignals toFixed edge edgeDirection
                                         delayRisk isByDate attentionScore
                                         volumeZScore isVolumeSpike momentum
                                         velocity24h timeRemainingDays liquidity))).
  { intro t. split; apply Permutation_in;
      [apply Permutation_sym |]; exact Hperm. }
  rewrite !Hin.
  split; [| split; [eapply Permutation_NoDup; [exact Hperm |] |]];
    unfold pushedSignals; cbv zeta;
    rewrite ?pushIf_length, ?pushIf_types; simpl;
    pose proof (precursor_excludes isVolumeSpike momentum velocity24h volumeZScore)
      as Hex;
    destruct (isVolumeSpike && ltb (Qabs velocity24h) 0.03);
    [destruct (Hex eq_refl) as [-> ->] | | destruct (Hex eq_refl) as [-> ->] |
    | destruct (Hex eq_refl) as [-> ->] | ]; clear Hex;
    repeat match goal with
           | |- context [if ?b then _ else _] => destruct b
           end; simpl;
    try lia;
    try (repeat constructor; simpl; intuition discriminate);
    try (intuition discriminate).
Qed.

(** The direction of a signal follows its type: deadline-overpriced
    says NO, attention-arbitrage says the edge direction, volume-precursor
    says WATCH, and WATCH comes from the volume-precursor rule only. *)
Lemma generateSignals_direction
    (edge : Q) (edgeDirection : Side) (delayRisk : Q) (isByDate : bool)
    (attentionScore volumeZScore : Q) (isVolumeSpike : bool)
    (momentum : Momentum) (velocity24h : Q) (timeRemainingDays : option Q)
    (liquidity : Q) (s : OpportunitySignal) :
  In s (generateSignals toFixed edge edgeDirection delayRisk isByDate
          attentionScore volumeZScore isVolumeSpike momentum velocity24h
          timeRemainingDays liquidity) ->
  match type s with
  | DeadlineOverpriced => direction s = Bet NO
  | MomentumEntry => direction s = Bet (match momentum with bullish => YES | _ => NO end)
  | AttentionArbitrage => direction s = Bet edgeDirection
  | VolumePrecursor => direction s = WATCH
  | MeanReversion => direction s = Bet (if gtb velocity24h 0 then NO else YES)
  end
  /\ (direction s = WATCH <-> type s = VolumePrecursor).
Proof.
  intro H. apply (generateSignals_In toFixed) in H.
  destruct H as [-> | [-> | [-> | [-> | ->]]]]; simpl.
  - split; [reflexivity | split; discriminate].
  - split; [destruct momentum; reflexivity |].
    destruct momentum; split; discriminate.
  - split; [reflexivity | split; discriminate].
  - split; [reflexivity | split; reflexivity].
  - split; [destruct (gtb velocity24h 0); reflexivity |].
    destruct (gtb velocity24h 0); split; discriminate.
Qed.

End SignalStructure.

(** ** The full scorer *)

Section Scorer.
Import JS AdvancedScoring.

Variable toFixed : Q -> nat -> string.
Variable now : Z.
Variable sqrt : Q -> Q.

Lemma within_unit_clamp (y : Q) : 0 < y < 1 -> Model.clamp01 y == y.
Proof.
  intro H. destruct (clamp01_cases y) as [[H0 E] | [[H0 E] | [H0 E]]]; lra.
Qed.

(** The edge of a score: its range, what a negative edge does to the
    direction, and what the absence of an end date does to the delay risk. *)
Lemma scoreMarketAdvanced_edge_bounds_aux (args : Market) (r : AdvancedScore) :
  scoreMarketAdvanced toFixed now sqrt args = Some r ->
  (-0.42 <= score_edge r <= 0)
  /\ (score_edge r < 0 -> score_edgeDirection r = NO)
  /\ (endDate args = None -> score_delayRisk r == 0).
Proof.
  intro H.
  destruct (scoreMarketAdvanced_Some toFixed now sqrt args r H)
    as (latest & rest & _ & Hy & ->).
  set (y := orElse (yesPrice latest) 0.5) in *.
  pose proof (within_unit_clamp y Hy) as Ey.
  pose proof (deadlineDelayModel_lowers now y (endDate args)
                (liquidity latest) (category args)) as Hm.
  cbv zeta in Hm. destruct Hm as [Hb Hc].
  unfold scoreLatest. cbv zeta.
  cbn [score_edge score_edgeDirection score_delayRisk].
  split; [lra |]. split.
  - intro Hneg. apply geb_gt in Hneg. rewrite Hneg. reflexivity.
  - intro Hn. destruct (endDate args); [discriminate |].
    destruct Hc as [_ ->]. reflexivity.
Qed.

(** X12: in a score returned by [scoreMarketAdvanced] the edge is never
    positive and never below -0.42 (the penalties add up to 0.41 at most;
    the bound leaves room for the rounding of their sum); the edge direction
    is YES exactly when the market has no end date, and then the edge and
    the delay risk are 0; with an end date the edge is negative and the
    direction is NO. *)
Theorem scoreMarketAdvanced_edge_never_positive (args : Market) (r : AdvancedScore) :
  scoreMarketAdvanced toFixed now sqrt args = Some r ->
  (-0.42 <= score_edge r <= 0)
  /\ (score_edgeDirection r = YES <-> endDate args = None)
  /\ match endDate args with
     | None => score_edge r == 0 /\ score_delayRisk r == 0
     | Some _ => score_edge r < 0 /\ score_edgeDirection r = NO
     end.
Proof.
  intro H.
  destruct (scoreMarketAdvanced_Some toFixed now sqrt args r H)
    as (latest & rest & _ & Hy & ->).
  set (y := orElse (yesPrice latest) 0.5) in *.
  pose proof (within_unit_clamp y Hy) as Ey.
  pose proof (deadlineDelayModel_lowers now y (endDate args)
                (liquidity latest) (category args)) as Hm.
  cbv zeta in Hm. destruct Hm as [Hb Hc].
  unfold scoreLatest. cbv zeta.
  cbn [score_edge score_edgeDirection score_delayRisk].
  set (out := Model.deadlineDelayModel now y (endDate args) (liquidity latest)
                (category args)) in *.
  destruct (endDate args) as [d |] eqn:Hd.
  - destruct Hc as [_ Hlt]. specialize (Hlt (proj1 Hy)).
    assert (Hneg : Model.modelProb out - y < 0) by lra.
    assert (Hdir : geb (Model.modelProb out - y) 0 = false) by (apply geb_gt; exact Hneg).
    rewrite Hdir.
    split; [lra |]. split; [split; discriminate |]. split; [exact Hneg | reflexivity].
  - destruct Hc as [Hmp Hdr].
    assert (Hz : Model.modelProb out - y == 0) by (rewrite Hmp; lra).
    assert (Hdir : geb (Model.modelProb out - y) 0 = true) by (apply geb_le; lra).
    rewrite Hdir.
    split; [lra |]. split; [split; reflexivity |].
    split; [exact Hz | rewrite Hdr; reflexivity].
Qed.

End Scorer.

Section FiredRules.
Import JS AdvancedScoring.

Variable toFixed : Q -> nat -> string.

Lemma pushIf_In_fired (c : bool) (s x : OpportunitySignal) (l : list OpportunitySignal) :
  In x (pushIf c s l) -> In x l \/ (x = s /\ c = true).
Proof.
  unfold pushIf. destruct c; [| tauto].
  rewrite in_app_iff. simpl. intuition congruence.
Qed.

(** Every emitted signal comes from a rule whose condition held. *)
Lemma generateSignals_fired
    (edge : Q) (edgeDirection : Side) (delayRisk : Q) (isByDate : bool)
    (attentionScore volumeZScore : Q) (isVolumeSpike : bool)
    (momentum : Momentum) (velocity24h : Q) (timeRemainingDays : option Q)
    (liquidity : Q) (s : OpportunitySignal) :
  In s (generateSignals toFixed edge edgeDirection delayRisk isByDate
          attentionScore volumeZScore isVolumeSpike momentum velocity24h
          timeRemainingDays liquidity) ->
  (s = deadlineOverpriced toFixed edge delayRisk timeRemainingDays
   /\ isByDate = true /\ 0.5 < delayRisk /\ edge < -0.05)
  \/ (s = momentumEntry toFixed momentum velocity24h volumeZScore
      /\ momentum <> neutral /\ isVolumeSpike = true /\ 0.08 < Qabs velocity24h)
  \/ (s = attentionArbitrage toFixed edge edgeDirection
      /\ attentionScore < 0.3 /\ 0.08 < Qabs edge)
  \/ (s = volumePrecursor volumeZScore
      /\ isVolumeSpike = true /\ Qabs velocity24h < 0.03)
  \/ (s = meanReversion toFixed velocity24h
      /\ 0.15 < Qabs velocity24h /\ 2.5 < volumeZScore).
Proof.
  unfold generateSignals, pushedSignals. rewrite sortSignals_In.
  intro H.
  repeat (apply pushIf_In_fired in H; destruct H as [H | [-> Hc]]);
    [destruct H | | | | |];
    repeat match goal with
           | H : _ && _ = true |- _ => apply andb_true_iff in H; destruct H
           | H : ltb _ _ = true |- _ => apply ltb_lt in H
           | H : gtb _ _ = true |- _ => apply gtb_lt in H
           end.
  - left. tauto.
  - right. left. repeat split; try assumption.
    destruct momentum; simpl in *; discriminate.
  - right. right. left. tauto.
  - right. right. right. left. tauto.
  - right. right. right. right. tauto.
Qed.

Variable sqrt : Q -> Q.

(** The spike flag is set only together with a z-score above 2. *)
Lemma volumeSpikeScore_spike_above_two (volume24h : option Q) (volumeHistory : list Q) :
  Model.isSpike (Model.volumeSpikeScore sqrt toFixed volume24h volumeHistory) = true ->
  2 < Model.volumeZScore (Model.volumeSpikeScore sqrt toFixed volume24h volumeHistory).
Proof.
  unfold Model.volumeSpikeScore.
  destruct (List.length _ <? 3)%nat; [discriminate |].
  destruct (eqb _ 0); [discriminate |].
  simpl. intro H. apply gtb_lt in H. lra.
Qed.

End FiredRules.

Section ScorerMore.
Import JS AdvancedScoring.

Variable toFixed : Q -> nat -> string.
Variable now : Z.
Variable sqrt : Q -> Q.

(** What the scorer computes for the newest snapshot, field by field. *)
Lemma scoreLatest_fields (args : Market) (latest : Snapshot) (y : Q) :
  let r := scoreLatest toFixed now sqrt args latest y in
  let out :=
    Model.deadlineDelayModel now y (endDate args) (liquidity latest) (category args) in
  currentYesPrice r = y
  /\ score_modelProb r = Model.modelProb out
  /\ score_delayRisk r = Model.delayRisk out
  /\ score_edge r = Model.modelProb out - y
  /\ score_edgeDirection r = (if geb (Model.modelProb out - y) 0 then YES else NO)
  /\ kellyFraction r
     = calculateKelly (Model.modelProb out) y
         (if geb (Model.modelProb out - y) 0 then YES else NO)
  /\ score_timeRemainingDays r = Deadline.timeRemainingDays now (endDate args)
  /\ urgency r
     = Deadline.deadlineUrgency (Deadline.timeRemainingDays now (endDate args))
  /\ tier r = scoreTier (compositeScore r)
  /\ score_liquidityScore r = Qmin 1 (orElse (liquidity latest) 0 / 50000)
  /\ score_attentionScore r
     = Model.attentionScore (volume24h latest) (priceChange24h latest)
         (liquidity latest).
Proof.
  repeat split.
Qed.

(** X14: every score returned by [scoreMarketAdvanced] has a yes-price
    strictly between 0 and 1, a model probability and a delay risk in
    [0,1], the tier that [scoreTier] gives its composite score, a liquidity
    score and an attention score of at most 1, a volume z-score above 2
    when the spike flag is set, and the urgency unknown exactly when there
    is no end date. *)
Theorem scoreMarketAdvanced_ranges (args : Market) (r : AdvancedScore) :
  scoreMarketAdvanced toFixed now sqrt args = Some r ->
  0 < currentYesPrice r < 1
  /\ 0 <= score_modelProb r <= 1
  /\ 0 <= score_delayRisk r <= 1
  /\ tier r = scoreTier (compositeScore r)
  /\ score_liquidityScore r <= 1
  /\ score_attentionScore r <= 1
  /\ (score_isVolumeSpike r = true -> 2 < score_volumeZScore r)
  /\ (urgency r = Deadline.unknown <-> endDate args = None).
Proof.
  intro H.
  destruct (scoreMarketAdvanced_Some toFixed now sqrt args r H)
    as (latest & rest & _ & Hy & ->).
  set (y := orElse (yesPrice latest) 0.5) in *.
  destruct (scoreLatest_fields args latest y)
    as (Ey & Em & Ed & _ & _ & _ & _ & Eu & Et & El & Ea).
  rewrite Ey, Em, Ed, Eu, El, Ea.
  pose proof (deadlineDelayModel_range now y (endDate args) (liquidity latest)
                (category args)) as [Hm Hd].
  split; [exact Hy |]. split; [exact Hm |]. split; [exact Hd |].
  split; [exact Et |].
  split; [apply Q.le_min_l |].
  split; [apply attentionScore_le_1 |].
  split; [apply volumeSpikeScore_spike_above_two |].
  destruct (endDate args) as [[t |] |]; simpl; [| split; discriminate | tauto].
  unfold Deadline.deadlineUrgency. cmp_prune; split; discriminate.
Qed.

End ScorerMore.

Section ScorerPrefix.
Import JS AdvancedScoring.

Variable toFixed : Q -> nat -> string.
Variable now : Z.
Variable sqrt : Q -> Q.

(** The market [args] with another snapshot list. *)
Definition withSnapshots (args : Market) (l : list Snapshot) : Market :=
  {| id := id args;
     title := title args;
     description := description args;
     rules := rules args;
     category := category args;
     endDate := endDate args;
     snapshots := l |}.

Lemma slice_firstn {A : Type} (i j n : nat) (l : list A) :
  (j <= n)%nat -> slice i j (firstn n l) = slice i j l.
Proof.
  intro H. unfold slice.
  rewrite skipn_firstn_comm, firstn_firstn.
  f_equal. lia.
Qed.

(** X15: [scoreMarketAdvanced] reads the newest 20 snapshots only: cutting
    the list to its first [n >= 20] entries, or appending older snapshots
    after the first 20, leaves the result unchanged. *)
Theorem scoreMarketAdvanced_reads_20_snapshots (args : Market) (n : nat) :
  (20 <= n)%nat ->
  scoreMarketAdvanced toFixed now sqrt (withSnapshots args (firstn n (snapshots args)))
  = scoreMarketAdvanced toFixed now sqrt args.
Proof.
  intro Hn. unfold scoreMarketAdvanced.
  destruct args as [i t d r c e snaps]. unfold withSnapshots.
  cbn [snapshots id title description rules category endDate].
  destruct snaps as [| latest rest].
  - rewrite firstn_nil. reflexivity.
  - destruct n as [| n']; [lia |]. rewrite firstn_cons.
    destruct (leb (orElse (yesPrice latest) 0.5) 0
              || geb (orElse (yesPrice latest) 0.5) 1); [reflexivity |].
    f_equal. unfold scoreLatest.
    cbn [snapshots id title description rules category endDate].
    rewrite <- (firstn_cons n' latest rest).
    rewrite !slice_firstn by lia. reflexivity.
Qed.

End ScorerPrefix.

Section ScorerPrefixExample.
Import JS AdvancedScoring.

Lemma scoreMarketAdvanced_reads_20_snapshots_witness :
  let older := Examples.pastVolume 990000 in
  let longer :=
    withSnapshots Examples.spikeMarket
      (snapshots Examples.spikeMarket ++ repeat older 16) in
  (20 <= 20)%nat
  /\ List.length (snapshots longer) = 21%nat
  /\ firstn 20 (snapshots longer)
     = snapshots Examples.spikeMarket ++ repeat older 15
  /\ scoreMarketAdvanced Host.toFixed 0 Host.sqrt
       (withSnapshots longer (firstn 20 (snapshots longer)))
     = scoreMarketAdvanced Host.toFixed 0 Host.sqrt longer.
Proof.
  intros older longer.
  assert (H : (20 <= 20)%nat) by lia.
  split; [exact H |]. split; [reflexivity |]. split; [reflexivity |].
  exact (scoreMarketAdvanced_reads_20_snapshots Host.toFixed 0 Host.sqrt longer 20 H).
Defined.

End ScorerPrefixExample.

Section ScorerSignals.
Import JS AdvancedScoring.

Variable toFixed : Q -> nat -> string.
Variable now : Z.
Variable sqrt : Q -> Q.

(** X16: in a score returned by [scoreMarketAdvanced], an
    attention-arbitrage signal always says NO and its strength is in
    [0.24, 1.26]; a deadline-overpriced signal needs an end date and has a
    confidence in [0.8, 0.9] and a strength in [0.25, 1]; a volume-precursor
    signal has a strength above 0.5; a momentum-entry signal has a
    confidence of at least 0.8 and a strength in [0.4, 1]; a mean-reversion
    signal has a strength in [0.45, 1].  The bounds are closed and the upper
    bound 1.26 is three times 0.42, so that none of them hangs on how a sum
    or a product is rounded. *)
Theorem scoreMarketAdvanced_signal_facts
    (args : Market) (r : AdvancedScore) (s : OpportunitySignal) :
  scoreMarketAdvanced toFixed now sqrt args = Some r ->
  In s (signals r) ->
  match type s with
  | AttentionArbitrage => direction s = Bet NO /\ 0.24 <= strength s <= 1.26
  | DeadlineOverpriced =>
      endDate args <> None /\ 0.8 <= confidence s <= 0.9 /\ 0.25 <= strength s <= 1
  | VolumePrecursor => 0.5 < strength s
  | MomentumEntry => 0.8 <= confidence s /\ 0.4 <= strength s <= 1
  | MeanReversion => 0.45 <= strength s <= 1
  end.
Proof.
  intros H Hin.
  pose proof (scoreMarketAdvanced_edge_bounds_aux toFixed now sqrt args r H) as Hedge.
  destruct (scoreMarketAdvanced_Some toFixed now sqrt args r H)
    as (latest & rest & _ & Hy & ->).
  set (y := orElse (yesPrice latest) 0.5) in *.
  destruct Hedge as (Hrange & Hdir & Hrisk).
  unfold scoreLatest in Hin. cbv zeta in Hin. cbn [signals] in Hin.
  apply generateSignals_fired in Hin.
  destruct (scoreLatest_fields toFixed now sqrt args latest y)
    as (_ & _ & Ed & Ee & Edir & _).
  rewrite Ee in Hrange, Hdir. rewrite Ed in Hrisk. rewrite Edir in Hdir.
  set (out := Model.deadlineDelayModel now y (endDate args) (liquidity latest)
                (category args)) in *.
  set (edge := Model.modelProb out - y) in *.
  destruct Hin as [(-> & _ & Hr & He) | [(-> & _ & Hs & Hv) | [(-> & _ & He)
    | [(-> & Hs & _) | (-> & Hv & _)]]]];
    cbn [type strength confidence direction deadlineOverpriced momentumEntry
         attentionArbitrage volumePrecursor meanReversion].
  - split; [intro Hn; specialize (Hrisk Hn); lra |].
    pose proof (deadlineDelayModel_range now y (endDate args) (liquidity latest)
                  (category args)) as [_ Hd]. fold out in Hd.
    split; [lra |].
    rewrite (Qabs_neg edge) by lra.
    split; [apply Q.min_glb; lra | apply Q.le_min_l].
  - apply volumeSpikeScore_spike_above_two in Hs.
    split; [lra |].
    split; [apply Q.min_glb; lra | apply Q.le_min_l].
  - assert (Hneg : edge < 0).
    { destruct (Qlt_le_dec edge 0) as [Hl | Hl]; [exact Hl |].
      rewrite (Qabs_pos edge Hl) in He. lra. }
    rewrite (Qabs_neg edge) in He by lra.
    rewrite (Qabs_neg edge) by lra.
    split; [| lra].
    rewrite (Hdir Hneg). reflexivity.
  - apply volumeSpikeScore_spike_above_two in Hs.
    apply Qlt_shift_div_l; lra.
  - split; [apply Q.min_glb; lra | apply Q.le_min_l].
Qed.

End ScorerSignals.

(** ** scoring.ts *)

Section ScoringProperties.
Import JS Scoring.

(** X17: [scoreDeadlineMarket] returns null exactly when the market does
    not look like a by-date market or quotes no yes-price.  In a result the
    market and model probabilities are in [0,1], the edge is never positive
    and never below -0.42 (the penalties add up to 0.41 at most; the bound
    leaves room for the rounding of their sum), and the delay risk is in
    [0,1]; without an end date the edge and the delay risk are 0. *)
Theorem scoreDeadlineMarket_result (now : Z)
    (id title : string) (description rules category : option string)
    (endDate : option Deadline.Date) (yesPrice liquidity : option Q) :
  (scoreDeadlineMarket now id title description rules category endDate yesPrice
     liquidity = None
   <-> Deadline.looksLikeByDateMarket title rules description = false
       \/ yesPrice = None)
  /\ (forall r,
         scoreDeadlineMarket now id title description rules category endDate
           yesPrice liquidity = Some r ->
         0 <= marketProb r <= 1
         /\ 0 <= modelProb r <= 1
         /\ -0.42 <= edge r <= 0
         /\ 0 <= delayRisk r <= 1
         /\ (endDate = None -> edge r == 0 /\ delayRisk r == 0)).
Proof.
  unfold scoreDeadlineMarket.
  destruct (Deadline.looksLikeByDateMarket title rules description);
    simpl; [| split; [tauto | discriminate]].
  destruct yesPrice as [y |]; [| split; [tauto | discriminate]].
  split; [split; [discriminate | intros [H | H]; discriminate] |].
  intros r H. injection H as <-. simpl.
  pose proof (clamp01_range y) as Hy.
  pose proof (clamp01_idem y) as Hi.
  pose proof (deadlineDelayModel_range now (Model.clamp01 y) endDate liquidity
                category) as [Hm Hd].
  pose proof (deadlineDelayModel_lowers now (Model.clamp01 y) endDate liquidity
                category) as [Hb Hc].
  split; [exact Hy |]. split; [exact Hm |]. split; [lra |]. split; [exact Hd |].
  intros ->. destruct Hc as [-> ->]. split; [lra | reflexivity].
Qed.

(** X18: [filterByEdge] keeps, in their order, exactly the markets whose
    absolute edge reaches the threshold, 0.05 when none is given; with the
    threshold 0 it keeps every market; filtering twice changes nothing. *)
Theorem filterByEdge_threshold (markets : list ScoredMarket) (minEdge : option Q) :
  (forall m, In m (filterByEdge markets minEdge)
             <-> In m markets /\ orElse minEdge 0.05 <= Qabs (edge m))
  /\ filterByEdge markets (Some 0) = markets
  /\ filterByEdge (filterByEdge markets minEdge) minEdge
     = filterByEdge markets minEdge
  /\ (List.length (filterByEdge markets minEdge) <= List.length markets)%nat.
Proof.
  unfold filterByEdge. split; [| split; [| split]].
  - intro m. rewrite filter_In, geb_le. reflexivity.
  - simpl. induction markets as [| m l IH]; simpl; [reflexivity |].
    assert (H : geb (Qabs (edge m)) 0 = true) by (apply geb_le, Qabs_nonneg).
    rewrite H, IH. reflexivity.
  - induction markets as [| m l IH]; simpl; [reflexivity |].
    destruct (geb (Qabs (edge m)) (orElse minEdge 0.05)) eqn:E; simpl.
    + rewrite E, IH. reflexivity.
    + exact IH.
  - apply filter_length_le.
Qed.

(** X19: [rankByEdge] returns a permutation of its input in descending
    order of absolute edge; ranking a ranked list changes nothing. *)
Theorem rankByEdge_sorted (markets : list ScoredMarket) :
  Permutation markets (rankByEdge markets)
  /\ StronglySorted (fun a b => Qabs (edge b) <= Qabs (edge a)) (rankByEdge markets)
  /\ rankByEdge (rankByEdge markets) = rankByEdge markets.
Proof.
  unfold rankByEdge. split; [| split].
  - apply sortWith_Permutation.
  - apply (sortWith_sorted (fun m => Qabs (edge m))).
  - apply (sortWith_sorted_id (fun m => Qabs (edge m))).
    apply (sortWith_sorted (fun m => Qabs (edge m))).
Qed.

(** X20: filtering by edge and ranking by edge commute: the route that
    filters and then ranks gets the list it would get by ranking first. *)
Theorem filterByEdge_rankByEdge_commute
    (markets : list ScoredMarket) (minEdge : option Q) :
  filterByEdge (rankByEdge markets) minEdge
  = rankByEdge (filterByEdge markets minEdge).
Proof.
  unfold filterByEdge, rankByEdge.
  apply (filter_sortWith (fun m => Qabs (edge m))).
Qed.

Lemma nonNull_In {A : Type} (x : A) (l : list (option A)) :
  In x (nonNull l) <-> In (Some x) l.
Proof.
  induction l as [| [a |] l IH]; simpl.
  - reflexivity.
  - rewrite IH. split; intros [H | H]; auto; left; congruence.
  - rewrite IH. split; [auto | intros [H | H]; [discriminate | exact H]].
Qed.

(** X21: [rankByAttention] drops the null entries and returns the others,
    each as often as it occurs, in descending order of attention score. *)
Theorem rankByAttention_sorted (markets : list (option MovingScore)) :
  Permutation (nonNull markets) (rankByAttention markets)
  /\ (forall m, In m (rankByAttention markets) <-> In (Some m) markets)
  /\ StronglySorted (fun a b => attentionScore b <= attentionScore a)
       (rankByAttention markets).
Proof.
  unfold rankByAttention. split; [| split].
  - apply sortWith_Permutation.
  - intro m. rewrite sortWith_In. apply nonNull_In.
  - apply (sortWith_sorted attentionScore).
Qed.

End ScoringProperties.

Section Opportunities.
Import JS Scoring.

Lemma deadline_loop (movingScores : list (option MovingScore))
    (minEdge minAttention : Q) (deadlineScores : list ScoredMarket)
    (acc : list Opportunity) :
  fold_left
    (fun opportunities scored =>
       let moving := find (hasId (id scored)) movingScores in
       if geb (Qabs (edge scored)) minEdge && ltb (attentionOf moving) minAttention
       then opportunities
              ++ [DeadlineUndervalued scored "High edge, low attention"
                    (edge scored) (attentionOf moving)]
       else opportunities)
    deadlineScores acc
  = acc
    ++ map (fun scored =>
              DeadlineUndervalued scored "High edge, low attention" (edge scored)
                (attentionOf (find (hasId (id scored)) movingScores)))
         (filter (fun scored =>
                    geb (Qabs (edge scored)) minEdge
                    && ltb (attentionOf (find (hasId (id scored)) movingScores))
                         minAttention)
            deadlineScores).
Proof.
  revert acc.
  induction deadlineScores as [| scored l IH]; intro acc; simpl.
  - rewrite app_nil_r. reflexivity.
  - rewrite IH.
    destruct (geb (Qabs (edge scored)) minEdge
              && ltb (attentionOf (find (hasId (id scored)) movingScores))
                   minAttention); simpl; [| reflexivity].
    rewrite <- app_assoc. reflexivity.
Qed.

Lemma deadlineOpportunities_spec (deadlineScores : list ScoredMarket)
    (movingScores : list (option MovingScore)) (minEdge minAttention : Q) :
  deadlineOpportunities deadlineScores movingScores minEdge minAttention
  = map (fun scored =>
           DeadlineUndervalued scored "High edge, low attention" (edge scored)
             (attentionOf (find (hasId (id scored)) movingScores)))
      (filter (fun scored =>
                 geb (Qabs (edge scored)) minEdge
                 && ltb (attentionOf (find (hasId (id scored)) movingScores))
                      minAttention)
         deadlineScores).
Proof.
  unfold deadlineOpportunities. rewrite deadline_loop. reflexivity.
Qed.

(** The momentum opportunity of a moving score, when it has one. *)
Definition momentumOf (minAttention : Q) (moving : option MovingScore)
  : list Opportunity :=
  match moving with
  | None => []
  | Some moving =>
      if geb (attentionScore moving) minAttention
         && gtb (Qabs (orElse (mv_priceChange24h moving) 0)) 0.1
      then [Momentum moving "High attention + strong price movement"
              (attentionScore moving) (mv_priceChange24h moving)]
      else []
  end.

Lemma momentumOpportunities_spec (movingScores : list (option MovingScore))
    (minAttention : Q) (opportunities : list Opportunity) :
  momentumOpportunities movingScores minAttention opportunities
  = opportunities ++ flat_map (momentumOf minAttention) movingScores.
Proof.
  unfold momentumOpportunities. revert opportunities.
  induction movingScores as [| moving l IH]; intro acc; simpl.
  - rewrite app_nil_r. reflexivity.
  - rewrite IH. destruct moving as [m |]; simpl; [| reflexivity].
    destruct (geb (attentionScore m) minAttention
              && gtb (Qabs (orElse (mv_priceChange24h m) 0)) 0.1); simpl;
      [rewrite <- app_assoc |]; reflexivity.
Qed.

Lemma flat_map_length_le {A B : Type} (f : A -> list B) (l : list A) :
  (forall a, List.length (f a) <= 1)%nat ->
  (List.length (flat_map f l) <= List.length l)%nat.
Proof.
  intro H. induction l as [| a l IH]; simpl; [lia |].
  rewrite length_app. specialize (H a). lia.
Qed.

(** X22: [detectOpportunities] lists the deadline opportunities first, in
    the order of the deadline scores, then the momentum opportunities.  A
    deadline opportunity is a deadline score whose absolute edge reaches
    the minimum edge and whose attention, that of the first moving score
    with its id and 0 when there is none, is under the minimum attention.
    A momentum opportunity is a non-null moving score whose attention
    reaches the minimum and whose 24h price change exceeds 0.1 in absolute
    value.  There are at most as many opportunities as inputs. *)
Theorem detectOpportunities_sound
    (deadlineScores : list ScoredMarket) (movingScores : list (option MovingScore))
    (minEdge minAttention : option Q) :
  let opportunities :=
    detectOpportunities deadlineScores movingScores minEdge minAttention in
  let e := orElse minEdge 0.05 in
  let a := orElse minAttention 0.3 in
  opportunities
  = deadlineOpportunities deadlineScores movingScores e a
    ++ flat_map (momentumOf a) movingScores
  /\ (forall market reason edge' attention,
         In (DeadlineUndervalued market reason edge' attention) opportunities
         <-> In market deadlineScores
             /\ e <= Qabs (edge market)
             /\ attention = attentionOf (find (hasId (id market)) movingScores)
             /\ attention < a
             /\ edge' = edge market
             /\ reason = "High edge, low attention"%string)
  /\ (forall market reason attention priceChange,
         In (Momentum market reason attention priceChange) opportunities
         <-> In (Some market) movingScores
             /\ a <= attentionScore market
             /\ 0.1 < Qabs (orElse (mv_priceChange24h market) 0)
             /\ attention = attentionScore market
             /\ priceChange = mv_priceChange24h market
             /\ reason = "High attention + strong price movement"%string)
  /\ (List.length opportunities
      <= List.length deadlineScores + List.length movingScores)%nat.
Proof.
  intros opportunities e a.
  assert (E : opportunities
              = deadlineOpportunities deadlineScores movingScores e a
                ++ flat_map (momentumOf a) movingScores).
  { unfold opportunities, detectOpportunities. apply momentumOpportunities_spec. }
  split; [exact E |]. rewrite E. clear E opportunities.
  rewrite deadlineOpportunities_spec.
  split; [| split].
  - intros market reason edge' attention.
    rewrite in_app_iff, in_map_iff. split.
    + intros [(scored & Heq & Hin) | Hin].
      * injection Heq as <- <- <- <-.
        apply filter_In in Hin. destruct Hin as [Hin Hc].
        apply andb_true_iff in Hc. destruct Hc as [Hc1 Hc2].
        apply geb_le in Hc1. apply ltb_lt in Hc2. tauto.
      * apply in_flat_map in Hin. destruct Hin as ([m |] & _ & Hm); simpl in Hm;
          [| destruct Hm].
        destruct (_ && _); simpl in Hm; [| destruct Hm].
        destruct Hm as [Hm | []]. discriminate.
    + intros (Hin & He & -> & Ha & -> & ->). left.
      exists market. split; [reflexivity |].
      apply filter_In. split; [exact Hin |].
      apply andb_true_iff. split; [apply geb_le | apply ltb_lt]; assumption.
  - intros market reason attention priceChange.
    rewrite in_app_iff, in_map_iff, in_flat_map. split.
    + intros [(scored & Heq & _) | ([m |] & Hin & Hm)]; [discriminate | |];
        simpl in Hm; [| destruct Hm].
      destruct (geb (attentionScore m) a
                && gtb (Qabs (orElse (mv_priceChange24h m) 0)) 0.1) eqn:Hc;
        simpl in Hm; [| destruct Hm].
      destruct Hm as [Hm | []]. injection Hm as <- <- <- <-.
      apply andb_true_iff in Hc. destruct Hc as [Hc1 Hc2].
      apply geb_le in Hc1. apply gtb_lt in Hc2. tauto.
    + intros (Hin & Ha & Hp & -> & -> & ->). right.
      exists (Some market). split; [exact Hin |]. simpl.
      apply geb_le in Ha. apply gtb_lt in Hp. rewrite Ha, Hp. left. reflexivity.
  - rewrite length_app, length_map.
    pose proof (filter_length_le
                  (fun scored =>
                     geb (Qabs (edge scored)) e
                     && ltb (attentionOf (find (hasId (id scored)) movingScores)) a)
                  deadlineScores).
    assert (Hf : (List.length (flat_map (momentumOf a) movingScores)
                  <= List.length movingScores)%nat).
    { apply flat_map_length_le. intros [m |]; simpl; [| lia].
      destruct (_ && _); simpl; lia. }
    lia.
Qed.

End Opportunities.

(** ** Price velocity *)

Section Velocity.
Import JS Model.

Lemma last_In_nonempty {A : Type} (a : A) (l : list A) :
  l <> [] -> In (last l a) l.
Proof.
  induction l as [| b l IH]; intro H; [congruence |].
  destruct l as [| c l'].
  - left. reflexivity.
  - right. apply IH. discriminate.
Qed.

Lemma last_In {A : Type} (a : A) (l : list A) : In (last l a) (a :: l).
Proof.
  destruct l as [| b l].
  - left. reflexivity.
  - right. apply last_In_nonempty. discriminate.
Qed.

Lemma firstMinusLast_bounded (lo hi : Q) (l : list PricePoint) :
  Forall (fun p => lo <= price p <= hi) l ->
  Qabs (firstMinusLast l) <= Qmax 0 (hi - lo).
Proof.
  intro H. unfold firstMinusLast.
  destruct l as [| a [| b l']].
  - simpl. apply Q.le_max_l.
  - simpl. apply Q.le_max_l.
  - rewrite Forall_forall in H.
    assert (Ha : lo <= price a <= hi) by (apply H; left; reflexivity).
    assert (Hl : lo <= price (JSArray.lastOf a (a :: b :: l')) <= hi).
    { apply H. unfold JSArray.lastOf.
      change (last (a :: b :: l') a) with (last (b :: l') a).
      pose proof (last_In a (b :: l')) as Hin.
      destruct Hin as [Hin | Hin]; [rewrite <- Hin; left; reflexivity |].
      right. exact Hin. }
    apply Qle_trans with (hi - lo); [| apply Q.le_max_r].
    apply Qabs_Qle_condition. lra.
Qed.

Lemma firstMinusLast_short (l : list PricePoint) :
  (List.length l < 2)%nat -> firstMinusLast l = 0.
Proof.
  destruct l as [| a [| b l']]; simpl; intro H; try reflexivity. lia.
Qed.

Lemma window_bounded (lo hi : Q) (since : Z) (priceHistory : list PricePoint) :
  Forall (fun p => lo <= price p <= hi) priceHistory ->
  Forall (fun p => lo <= price p <= hi)
    (filter (notBefore since) (JSArray.sortWith compareByTime priceHistory)).
Proof.
  rewrite !Forall_forall. intros H p Hp.
  apply filter_In in Hp. destruct Hp as [Hp _].
  apply sortWith_In in Hp. apply H, Hp.
Qed.

Lemma velocity_bounds_aux (now : Z) (lo hi : Q) (priceHistory : list PricePoint) :
  Forall (fun p => lo <= price p <= hi) priceHistory ->
  Qabs (velocity1h (priceVelocity now priceHistory)) <= Qmax 0 (hi - lo)
  /\ Qabs (velocity24h (priceVelocity now priceHistory)) <= Qmax 0 (hi - lo).
Proof.
  intro H. unfold priceVelocity.
  destruct (List.length priceHistory <? 2)%nat.
  - simpl. split; apply Q.le_max_l.
  - cbv zeta. cbn [velocity1h velocity24h].
    split; apply firstMinusLast_bounded, window_bounded, H.
Qed.

(** X23: [priceVelocity] gives zero velocities and zero acceleration for a
    history of fewer than 2 points, and zero velocities when fewer than 2
    points are at most a day old.  When every price lies in [lo, hi], both
    velocities are at most [hi - lo] in absolute value, in whatever order
    the points are given. *)
Theorem priceVelocity_bounded (now : Z) (lo hi : Q) (priceHistory : list PricePoint) :
  ((List.length priceHistory < 2)%nat ->
   priceVelocity now priceHistory
   = {| velocity1h := 0; velocity24h := 0; acceleration := 0 |})
  /\ ((List.length (filter (notBefore (now - 24 * 60 * 60 * 1000)) priceHistory) < 2)%nat ->
      velocity24h (priceVelocity now priceHistory) = 0)
  /\ (Forall (fun p => lo <= price p <= hi) priceHistory ->
      Qabs (velocity1h (priceVelocity now priceHistory)) <= Qmax 0 (hi - lo)
      /\ Qabs (velocity24h (priceVelocity now priceHistory)) <= Qmax 0 (hi - lo)).
Proof.
  unfold priceVelocity. split; [| split].
  - intro H. apply Nat.ltb_lt in H. rewrite H. reflexivity.
  - intro H. destruct (List.length priceHistory <? 2)%nat; [reflexivity |].
    cbv zeta. cbn [velocity24h].
    apply firstMinusLast_short.
    erewrite Permutation_length; [exact H |].
    apply Permutation_sym.
    (* filtering a permutation gives a permutation *)
    assert (Hp : forall (l l' : list PricePoint) f,
               Permutation l l' -> Permutation (filter f l) (filter f l')).
    { intros l l' f Hl. induction Hl; simpl.
      - constructor.
      - destruct (f x); [apply perm_skip |]; assumption.
      - destruct (f x); destruct (f y); try apply Permutation_refl.
        apply perm_swap.
      - eapply perm_trans; eassumption. }
    apply Hp, sortWith_Permutation.
  - fold (priceVelocity now priceHistory). apply velocity_bounds_aux.
Qed.

End Velocity.

Section MovingMarket.
Import JS Scoring.

Variable now : Z.
Variable sqrt : Q -> Q.
Variable toFixed : Q -> nat -> string.

(** X24: [scoreMovingMarket] returns null exactly for an empty snapshot
    list.  In a result the volume spike is the z-score when the spike test
    passed, and then above 2, and null otherwise; the attention score is at
    most 1; the current price is 0 when the newest snapshot quotes none;
    and when no snapshot quotes a yes-price above 1 both velocities are at
    most 1 in absolute value. *)
Theorem scoreMovingMarket_result
    (id title : string) (snapshots : list MovingSnapshot) :
  (scoreMovingMarket now sqrt toFixed id title snapshots = None <-> snapshots = [])
  /\ (forall r,
         scoreMovingMarket now sqrt toFixed id title snapshots = Some r ->
         match volumeSpike r with
         | Some z => z = volumeZScore r /\ 2 < z
         | None => True
         end
         /\ attentionScore r <= 1
         /\ (exists latest rest,
                snapshots = latest :: rest
                /\ currentPrice r = orElse (yesPrice latest) 0)
         /\ (Forall (fun s => orElse (yesPrice s) 0 <= 1) snapshots ->
             Qabs (velocity1h r) <= 1 /\ Qabs (velocity24h r) <= 1)).
Proof.
  unfold scoreMovingMarket.
  destruct snapshots as [| latest rest].
  - split; [tauto | discriminate].
  - split; [split; discriminate |].
    intros r H. injection H as <-.
    cbn [volumeSpike volumeZScore attentionScore currentPrice velocity1h velocity24h].
    split; [| split; [| split]].
    + destruct (Model.isSpike _) eqn:Hs; [| exact I].
      split; [reflexivity |].
      apply volumeSpikeScore_spike_above_two. exact Hs.
    + apply attentionScore_le_1.
    + exists latest, rest. split; reflexivity.
    + intro Hall.
      assert (Hb : Forall (fun p => 0 <= Model.price p <= 1)
                     (filter (fun p => gtb (Model.price p) 0)
                        (map (fun s => {| Model.price := orElse (yesPrice s) 0;
                                          Model.timestamp := capturedAt s |})
                           (latest :: rest)))).
      { apply Forall_forall. intros p Hp.
        apply filter_In in Hp. destruct Hp as [Hp Hpos].
        apply gtb_lt in Hpos. apply in_map_iff in Hp.
        destruct Hp as (s & <- & Hs). simpl in *.
        rewrite Forall_forall in Hall. specialize (Hall s Hs). lra. }
      pose proof (velocity_bounds_aux now 0 1 _ Hb) as Hv.
      exact Hv.
Qed.

End MovingMarket.

(** ** Literal patterns and substrings *)

Section RegexLiterals.
Import JS Regex.

Definition isSome {A : Type} (o : option A) : bool :=
  match o with
  | Some _ => true
  | None => false
  end.

Lemma isSome_option_map {A B : Type} (f : A -> B) (o : option A) :
  isSome (option_map f o) = isSome o.
Proof. destruct o; reflexivity. Qed.

(** An atom that takes exactly one character. *)
Lemma matchHere_one (anch : bool) (p : ascii -> bool) (rest : list atom) (s : string) :
  isSome (matchHere anch (one p :: rest) s)
  = match s with
    | String c s' => p c && isSome (matchHere anch rest s')
    | EmptyString => false
    end.
Proof.
  destruct s as [| c s']; [reflexivity |].
  cbn [matchHere one cls lo hi run].
  destruct (p c); [| reflexivity].
  cbn [Nat.min backtrack Nat.ltb Nat.leb drop].
  destruct (matchHere anch rest s'); reflexivity.
Qed.

Lemma prefix_cons (a b : ascii) (s t : string) :
  prefix (String a s) (String b t) = Ascii.eqb a b && prefix s t.
Proof.
  simpl. destruct (ascii_dec a b) as [-> | Hn].
  - rewrite Ascii.eqb_refl. reflexivity.
  - apply Ascii.eqb_neq in Hn. rewrite Hn. reflexivity.
Qed.

(** A literal followed by more atoms matches here only where the literal is
    a prefix. *)
Lemma matchHere_lit (word : string) (rest : list atom) (s : string) :
  isSome (matchHere false (lit word ++ rest) s)
  = prefix word s && isSome (matchHere false rest (drop (String.length word) s)).
Proof.
  revert s. induction word as [| a word IH]; intro s.
  - simpl. destruct s; reflexivity.
  - cbn [lit app]. rewrite matchHere_one.
    destruct s as [| c s']; [reflexivity |].
    rewrite prefix_cons, IH. simpl. rewrite andb_assoc. reflexivity.
Qed.

Lemma test_unfold (p : pattern) (s : string) :
  test p s
  = isSome (matchHere (anchored p) (atoms p) s)
    || match s with
       | EmptyString => false
       | String _ s' => test p s'
       end.
Proof.
  unfold test. destruct s as [| c s']; simpl;
    destruct (matchHere (anchored p) (atoms p) _); reflexivity.
Qed.

Lemma matchHere_lit_only (word s : string) :
  isSome (matchHere false (lit word) s) = prefix word s.
Proof.
  rewrite <- (app_nil_r (lit word)), matchHere_lit. simpl.
  apply andb_true_r.
Qed.

Lemma includes_unfold (word s : string) :
  includes word s
  = prefix word s
    || match s with
       | EmptyString => false
       | String _ s' => includes word s'
       end.
Proof.
  destruct s as [| c s'].
  - change (includes word "") with (if prefix word "" then true else false).
    destruct (prefix word ""); reflexivity.
  - change (includes word (String c s'))
      with (if prefix word (String c s') then true else includes word s').
    destruct (prefix word (String c s')); reflexivity.
Qed.

(** Testing a literal pattern is a substring test. *)
Lemma test_lit (word s : string) :
  test (Pattern (lit word) None false) s = includes word s.
Proof.
  induction s as [| c s IH]; rewrite test_unfold, includes_unfold;
    cbn [atoms anchored]; rewrite matchHere_lit_only.
  - reflexivity.
  - rewrite IH. reflexivity.
Qed.

(** A pattern that starts with a literal matches only in a text that
    contains the literal. *)
Lemma test_lit_prefix (word : string) (rest : list atom) (s : string) :
  test (Pattern (lit word ++ rest) None false) s = true -> includes word s = true.
Proof.
  induction s as [| c s IH]; rewrite test_unfold, includes_unfold;
    cbn [atoms anchored]; rewrite matchHere_lit.
  - destruct (prefix word ""); [reflexivity |]. simpl. discriminate.
  - destruct (prefix word (String c s)); [reflexivity |]. simpl. exact IH.
Qed.

End RegexLiterals.

Section ByDate.
Import JS Regex Deadline.

(** The last pattern of [looksLikeByDateMarket]: [/\d{4}$/]. *)
Definition endsWithYear : pattern := Pattern [between isDigit 4 4] None true.

Lemma space_not_digit : isDigit " " = false.
Proof. reflexivity. Qed.

Lemma matchHere_year_space (x : string) :
  matchHere true [between isDigit 4 4] (x ++ " ") = None.
Proof.
  destruct x as [| c1 [| c2 [| c3 [| c4 x']]]];
    cbn [matchHere run cls lo hi between append];
    rewrite ?space_not_digit;
    repeat match goal with
           | |- context [isDigit ?c] => destruct (isDigit c)
           end;
    try reflexivity.
  cbn [Nat.min backtrack Nat.ltb Nat.leb drop option_map andb negb].
  destruct x'; reflexivity.
Qed.

(** A text that ends in a space does not end in a year. *)
Lemma test_year_space (x : string) : test endsWithYear (x ++ " ") = false.
Proof.
  induction x as [| c x IH].
  - reflexivity.
  - pose proof (matchHere_year_space (String c x)) as H.
    change (String c x ++ " ")%string with (String c (x ++ " ")) in *.
    rewrite test_unfold. cbn [atoms anchored endsWithYear].
    rewrite H. simpl. exact IH.
Qed.

End ByDate.

Section ByDateClassifier.
Import JS Regex Deadline.

Lemma str_app_assoc (a b c : string) : ((a ++ b) ++ c = a ++ (b ++ c))%string.
Proof.
  induction a as [| x a IH]; simpl; [reflexivity | now rewrite IH].
Qed.

Lemma str_app_nil_r (a : string) : (a ++ "" = a)%string.
Proof.
  induction a as [| x a IH]; simpl; [reflexivity | now rewrite IH].
Qed.

Lemma toLowerCase_app (a b : string) :
  toLowerCase (a ++ b) = (toLowerCase a ++ toLowerCase b)%string.
Proof.
  induction a as [| x a IH]; simpl; [reflexivity | now rewrite IH].
Qed.

Lemma lowerAscii_idem (c : ascii) : lowerAscii (lowerAscii c) = lowerAscii c.
Proof.
  destruct c as [[] [] [] [] [] [] [] []]; reflexivity.
Qed.

Lemma toLowerCase_idem (s : string) : toLowerCase (toLowerCase s) = toLowerCase s.
Proof.
  induction s as [| c s IH]; simpl; [reflexivity |].
  now rewrite lowerAscii_idem, IH.
Qed.

(** The text [looksLikeByDateMarket] searches. *)
Definition byDateText (title : string) (rules description : option string) : string :=
  toLowerCase (title ++ " " ++ orElse rules "" ++ " " ++ orElse description "")%string.

Lemma looksLikeByDateMarket_tests (title : string) (rules description : option string) :
  looksLikeByDateMarket title rules description
  = existsb (fun pattern => test pattern (byDateText title rules description))
      byDatePatterns.
Proof. reflexivity. Qed.

(** X25: of the eleven patterns of [looksLikeByDateMarket] seven decide:
    the result is true exactly when the lowercased text contains " by ",
    " before ", " this year", " this month", " this week" or "deadline", or
    ends in four digits.  The text ends with the description, so without a
    description it ends in a space and the four-digit pattern cannot match:
    a year at the end of the title alone is not detected. *)
Theorem looksLikeByDateMarket_substrings
    (title : string) (rules description : option string) :
  let text := byDateText title rules description in
  looksLikeByDateMarket title rules description
  = (includes " by " text || includes " before " text
     || includes " this year" text || includes " this month" text
     || includes " this week" text || includes "deadline" text
     || test endsWithYear text)
  /\ (description = None \/ description = Some ""%string ->
      test endsWithYear text = false)
  /\ looksLikeByDateMarket "Who wins in 2026" None None = false
  /\ looksLikeByDateMarket "Who wins" None (Some "Resolves in 2026"%string) = true.
Proof.
  intro text. split; [| split; [| split; reflexivity]].
  - rewrite looksLikeByDateMarket_tests. fold text.
    unfold byDatePatterns. cbn [existsb].
    rewrite !test_lit.
    pose proof (test_lit_prefix " by " (lit "end of ") text) as H3.
    pose proof (test_lit_prefix " by " [between isDigit 4 4] text) as H7.
    pose proof (test_lit_prefix " before "
                  ([between isDigit 1 2] ++ lit "/" ++ [between isDigit 1 2]) text)
      as H8.
    pose proof (test_lit_prefix " by "
                  ([plus isLower] ++ lit " " ++ [between isDigit 1 2]) text) as H9.
    rewrite <- (test_lit " by end of " text).
    change (lit " by end of ") with (lit " by " ++ lit "end of ").
    fold endsWithYear.
    destruct (test (Pattern (lit " by " ++ lit "end of ") None false) text);
      destruct (test (Pattern (lit " by " ++ [between isDigit 4 4]) None false) text);
      destruct (test (Pattern (lit " before " ++ [between isDigit 1 2] ++ lit "/"
                                 ++ [between isDigit 1 2]) None false) text);
      destruct (test (Pattern (lit " by " ++ [plus isLower] ++ lit " "
                                 ++ [between isDigit 1 2]) None false) text);
      try rewrite (H3 eq_refl); try rewrite (H7 eq_refl);
      try rewrite (H8 eq_refl); try rewrite (H9 eq_refl);
      repeat match goal with
             | |- context [includes ?w text] => destruct (includes w text)
             end;
      destruct (test endsWithYear text); reflexivity.
  - intros [-> | ->]; unfold text, byDateText; cbn [orElse];
      rewrite str_app_nil_r;
      rewrite <- !str_app_assoc; rewrite toLowerCase_app;
      apply test_year_space.
Qed.

(** X26: [looksLikeByDateMarket] ignores the case of ASCII letters:
    lowercasing the three texts beforehand does not change the result. *)
Theorem looksLikeByDateMarket_case_insensitive
    (title : string) (rules description : option string) :
  looksLikeByDateMarket (toLowerCase title) (option_map toLowerCase rules)
    (option_map toLowerCase description)
  = looksLikeByDateMarket title rules description.
Proof.
  rewrite !looksLikeByDateMarket_tests. f_equal.
  unfold byDateText.
  destruct rules as [r |]; destruct description as [d |]; cbn [option_map orElse];
    rewrite !toLowerCase_app, !toLowerCase_idem; reflexivity.
Qed.

End ByDateClassifier.

(** ** More on the deadline extractor *)

Section ExtractorMore.
Import JS Regex Deadline.

Variable endOfThisYear : Z.
Variable parseDate : string -> option Z.

(** X27: [extractDeadline] returns null exactly when no structured end date
    is given and none of the five patterns matches the title and rules;
    so whether it finds a deadline depends neither on the clock nor on the
    host's date parser.  When a pattern matches and none before it does,
    the result is the date built from that match alone: the end of the
    current year when the matched text contains "this year", else what the
    host parser makes of the captured group. *)
Theorem extractDeadline_null_iff
    (title : string) (rules : option string) (endDate : option Date) :
  let text := (title ++ " " ++ orElse rules "")%string in
  (extractDeadline endOfThisYear parseDate title rules endDate = None
   <-> endDate = None /\ Forall (fun p => exec p text = None) deadlinePatterns)
  /\ (forall before p after m,
         deadlinePatterns = before ++ p :: after ->
         Forall (fun q => exec q text = None) before ->
         exec p text = Some m ->
         extractDeadline endOfThisYear parseDate title rules None
         = Some (if includes "this year" (m0 m) then MkDate endOfThisYear
                 else match parseDate (groupOrWhole m) with
                      | Some t => MkDate t
                      | None => InvalidDate
                      end)).
Proof.
  intro text. split.
  - unfold extractDeadline. destruct endDate as [d |].
    + split; [discriminate | intros [H _]; discriminate].
    + fold text. rewrite tryPatterns_None. tauto.
  - intros before p after m Hp Hb Hm.
    unfold extractDeadline. fold text. rewrite Hp.
    apply (tryPatterns_first_match endOfThisYear parseDate before p after text m Hb Hm).
Qed.

End ExtractorMore.

(** ** The scorer on the example markets *)

Section ScorerExamples.
Import JS AdvancedScoring.

Lemma scoreMarketAdvanced_edge_never_positive_witness :
  exists r,
    scoreMarketAdvanced Host.toFixed 0 Host.sqrt Examples.spikeMarket = Some r
    /\ score_edge r == -0.20
    /\ (-0.42 <= score_edge r <= 0)
    /\ score_edgeDirection r = NO
    /\ exists r',
        scoreMarketAdvanced Host.toFixed 0 Host.sqrt Examples.unquotedMarket = Some r'
        /\ score_edgeDirection r' = YES
        /\ score_edge r' == 0
        /\ score_delayRisk r' == 0.
Proof.
  eexists. split; [reflexivity |].
  pose proof (scoreMarketAdvanced_edge_never_positive Host.toFixed 0 Host.sqrt
                Examples.spikeMarket _ eq_refl) as (Hr & _ & Hneg & Hdir).
  split; [vm_compute; reflexivity |]. split; [exact Hr |]. split; [exact Hdir |].
  eexists. split; [reflexivity |].
  pose proof (scoreMarketAdvanced_edge_never_positive Host.toFixed 0 Host.sqrt
                Examples.unquotedMarket _ eq_refl) as (_ & Hyes & He & Hk).
  split; [apply Hyes; reflexivity |]. split; [exact He | exact Hk].
Defined.

Lemma scoreMarketAdvanced_ranges_witness :
  exists r,
    scoreMarketAdvanced Host.toFixed 0 Host.sqrt Examples.spikeMarket = Some r
    /\ compositeScore r == 90.15
    /\ tier r = Tier.S
    /\ 0 < currentYesPrice r < 1
    /\ tier r = scoreTier (compositeScore r)
    /\ (urgency r = Deadline.unknown <-> endDate Examples.spikeMarket = None).
Proof.
  eexists. split; [reflexivity |].
  pose proof (scoreMarketAdvanced_ranges Host.toFixed 0 Host.sqrt
                Examples.spikeMarket _ eq_refl)
    as (Hy & _ & _ & Hc & _ & _ & _ & Hu).
  split; [vm_compute; reflexivity |]. split; [vm_compute; reflexivity |].
  split; [exact Hy |]. split; [exact Hc | exact Hu].
Defined.

Lemma scoreMarketAdvanced_signal_facts_witness :
  exists r s,
    scoreMarketAdvanced Host.toFixed 0 Host.sqrt Examples.spikeMarket = Some r
    /\ In s (signals r)
    /\ type s = VolumePrecursor
    /\ 0.5 < strength s.
Proof.
  eexists. exists (volumePrecursor (419430400000 # 52428800000)).
  split; [reflexivity |].
  assert (Hin : In (volumePrecursor (419430400000 # 52428800000))
                  (signals (scoreLatest Host.toFixed 0 Host.sqrt Examples.spikeMarket
                              (Examples.snapshotOf (Some 0.20) (Some 500000)
                                 (Some 2000) (Some 0.01))
                              (JS.orElse (Some 0.20) 0.5)))).
  { vm_compute. left. reflexivity. }
  split; [exact Hin |]. split; [reflexivity |].
  exact (scoreMarketAdvanced_signal_facts Host.toFixed 0 Host.sqrt
           Examples.spikeMarket _ _ eq_refl Hin).
Defined.

End ScorerExamples.
